(** * G5 spaced-repetition schedule generator: model and verified properties

    A shallow embedding of [g5/models/set.py], [g5/models/schedule.py],
    [g5/utils/icalendar_export.py] and [g5/cli.py] (the single-file
    [g5_generator.py] carries the same code).

    Modelling conventions.
    - A Python [datetime] is a day of the proleptic Gregorian calendar (its
      ordinal, as [datetime.toordinal] numbers it: 0001-01-01 is day 1)
      together with the microseconds elapsed since midnight.  The type holds
      the days 0001-01-01 to 9999-12-31 ([valid_datetime]); adding a
      [timedelta] that leaves them raises [OverflowError], as the library
      does.
    - [strftime] pads the year to four digits, as the library documents.
    - A Python [dict] keyed by strings is a [gmap string _]; a list is a
      list; an exception is a value of [exn] returned through [result].
    - The operating system, the [icalendar] package and [uuid.uuid4] are the
      record [world]: files, standard output, and what the environment will
      answer. *)

From Stdlib Require Import ZArith Ascii String DecimalString.
From stdpp Require Import gmap strings list fin_maps sorting.

Local Open Scope Z_scope.

(** ** The civil calendar behind [datetime] *)

Module Calendar.

Definition is_leap (y : Z) : bool :=
  (y mod 4 =? 0) && (negb (y mod 100 =? 0) || (y mod 400 =? 0)).

Definition days_before_year (y : Z) : Z :=
  (y - 1) * 365 + (y - 1) / 4 - (y - 1) / 100 + (y - 1) / 400.

Definition days_in_month (y m : Z) : Z :=
  if m =? 2 then (if is_leap y then 29 else 28)
  else if (m =? 4) || (m =? 6) || (m =? 9) || (m =? 11) then 30
  else 31.

(** Days of the year before the first of month [m], for a common year. *)
Definition days_before_month_common (m : Z) : Z :=
  match m with
  | 1 => 0 | 2 => 31 | 3 => 59 | 4 => 90 | 5 => 120 | 6 => 151
  | 7 => 181 | 8 => 212 | 9 => 243 | 10 => 273 | 11 => 304 | 12 => 334
  | _ => 0
  end.

Definition days_before_month (y m : Z) : Z :=
  days_before_month_common m + (if (2 <? m) && is_leap y then 1 else 0).

Definition valid_ymd (y m d : Z) : bool :=
  (1 <=? y) && (y <=? 9999) && (1 <=? m) && (m <=? 12)
  && (1 <=? d) && (d <=? days_in_month y m).

Definition ymd2ord (y m d : Z) : Z :=
  days_before_year y + days_before_month y m + d.

(** Month and day of the [n]-th day (from 0) of a year. *)
Definition month_day (leap : bool) (n : Z) : Z * Z :=
  let lp := if leap then 1 else 0 in
  let m0 := Z.shiftr (n + 50) 5 in
  let preceding := days_before_month_common m0 + (if (2 <? m0) && leap then lp else 0) in
  if n <? preceding then
    let m := m0 - 1 in
    let dim := if m =? 2 then 28 + lp
               else if (m =? 4) || (m =? 6) || (m =? 9) || (m =? 11) then 30 else 31 in
    (m, n - (preceding - dim) + 1)
  else (m0, n - preceding + 1).

Definition ord2ymd (n : Z) : Z * Z * Z :=
  let n0 := n - 1 in
  let n400 := n0 / 146097 in
  let r := n0 mod 146097 in
  let n100 := r / 36524 in
  let r2 := r mod 36524 in
  let n4 := r2 / 1461 in
  let r3 := r2 mod 1461 in
  let n1 := r3 / 365 in
  let r4 := r3 mod 365 in
  let year := n400 * 400 + 1 + n100 * 100 + n4 * 4 + n1 in
  if (n1 =? 4) || (n100 =? 4) then (year - 1, 12, 31)
  else
    let leap := (n1 =? 3) && (negb (n4 =? 24) || (n100 =? 3)) in
    let '(m, d) := month_day leap r4 in (year, m, d).

Definition max_ordinal : Z := 3652059.

(** Auxiliary notions used to state the calendar facts. *)

Definition leap_extra (leap : bool) : Z := if leap then 1 else 0.

Definition month_day_ok (leap : bool) (n : Z) : bool :=
let '(m, d) := month_day leap n in
(1 <=? m) && (m <=? 12) && (1 <=? d)
&& (d <=? (if m =? 2 then 28 + leap_extra leap
           else if (m =? 4) || (m =? 6) || (m =? 9) || (m =? 11) then 30 else 31))
&& (days_before_month_common m + (if (2 <? m) && leap then 1 else 0) + d =? n + 1).

Definition day_valid (y m d : Z) : Prop :=
1 <= m <= 12 /\ 1 <= d <= days_in_month y m.

Definition ymd_lt (a b : Z * Z * Z) : Prop :=
let '(y, m, d) := a in let '(y', m', d') := b in
y < y' \/ (y = y' /\ (m < m' \/ (m = m' /\ d < d'))).

End Calendar.

(** ** Text: decimal numbers, format specifications, substring search *)

Module Text.

Definition digit_char (d : Z) : ascii := ascii_of_N (Z.to_N (48 + d)).

Definition digit_val (c : ascii) : option Z :=
  let n := Z.of_N (N_of_ascii c) in
  if (48 <=? n) && (n <=? 57) then Some (n - 48) else None.

(** [str(z)] for an integer [z]. *)
Definition str_int (z : Z) : string := NilZero.string_of_int (Z.to_int z).

Fixpoint zeros (n : nat) : string :=
  match n with O => EmptyString | S k => String "0" (zeros k) end.

(** [format(z, "0<w>d")]: sign first, then zeros up to width [w]. *)
Definition format_0d (w : nat) (z : Z) : string :=
  let sign := if z <? 0 then "-"%string else EmptyString in
  let body := str_int (Z.abs z) in
  sign +:+ zeros (w - String.length sign - String.length body) +:+ body.

(** [needle in hay] on Python strings. *)
Fixpoint contains (needle hay : string) : bool :=
  String.prefix needle hay
  || match hay with
     | EmptyString => false
     | String _ rest => contains needle rest
     end.

(** [sep.join(parts)]. *)
Definition join (sep : string) (parts : list string) : string :=
  String.concat sep parts.

(** The fixed-width digit strings that dates in range are written with. *)

Definition digits2 (n : Z) : string :=
  String (digit_char (n / 10)) (String (digit_char (n mod 10)) EmptyString).

Definition digits4 (n : Z) : string :=
  digits2 (n / 100) +:+ digits2 (n mod 100).

(** The text of a date in range: four digits, two digits, two digits. *)
Definition iso_text (y m d : Z) : string :=
  digits4 y +:+ "-" +:+ digits2 m +:+ "-" +:+ digits2 d.

End Text.

(** ** Exceptions and the two monads of the model *)

Inductive exn : Type :=
  | ValueError (msg : string)
  | OverflowError (msg : string)
  | ImportError (msg : string)
  | OSError (msg : string).

(** [str(e)]. *)
Definition exn_message (e : exn) : string :=
  match e with
  | ValueError m | OverflowError m | ImportError m | OSError m => m
  end.

Inductive result (A : Type) : Type :=
  | Ok (a : A)
  | Raise (e : exn).
Arguments Ok {A} a.
Arguments Raise {A} e.

Definition result_bind {A B} (r : result A) (k : A -> result B) : result B :=
  match r with Ok a => k a | Raise e => Raise e end.

Global Instance result_mbind : MBind result := fun A B k r => result_bind r k.
Global Instance result_mret : MRet result := fun A a => Ok a.

(** A [for] loop that builds a list and stops at the first exception. *)
Fixpoint result_mapM {A B} (f : A -> result B) (l : list A) : result (list B) :=
  match l with
  | [] => Ok []
  | x :: rest =>
      result_bind (f x) (fun y =>
      result_bind (result_mapM f rest) (fun ys => Ok (y :: ys)))
  end.

(** A [for] loop that updates an accumulator and stops at the first
    exception. *)
Fixpoint result_foldl {A B} (f : A -> B -> result A) (a : A) (l : list B) : result A :=
  match l with
  | [] => Ok a
  | x :: rest => result_bind (f a x) (fun a' => result_foldl f a' rest)
  end.

(** [enumerate(l)]. *)
Definition enumerate {A} (l : list A) : list (nat * A) := imap pair l.

(** ** datetime *)

Module Datetime.
Import Calendar Text.

Record datetime : Type := mk_datetime {
  ordinal : Z;        (* proleptic Gregorian day number, 0001-01-01 = 1 *)
  micro_of_day : Z    (* microseconds since midnight *)
}.

Definition usec_per_day : Z := 86400000000.

Definition valid_datetime (dt : datetime) : Prop :=
  1 <= ordinal dt <= max_ordinal /\ 0 <= micro_of_day dt < usec_per_day.

Definition midnight (n : Z) : datetime :=
  {| ordinal := n; micro_of_day := 0 |}.

(** The datetime [k] days after [dt] on the day line, whether or not
    [datetime] can hold it. *)
Definition plus_days (dt : datetime) (k : Z) : datetime :=
  {| ordinal := ordinal dt + k; micro_of_day := micro_of_day dt |}.

Definition in_calendar (n : Z) : bool := (1 <=? n) && (n <=? max_ordinal).

(** [dt + timedelta(days=k)]: the days 0001-01-01 to 9999-12-31 exist, and
    leaving them raises. *)
Definition add_days (dt : datetime) (k : Z) : result datetime :=
  if in_calendar (ordinal dt + k) then Ok (plus_days dt k)
  else Raise (OverflowError "date value out of range").

(** [d + timedelta(days=k)] on a [date], which is a day number. *)
Definition date_add_days (d k : Z) : result Z :=
  if in_calendar (d + k) then Ok (d + k)
  else Raise (OverflowError "date value out of range").

(** [(a - b).days]: a timedelta is normalised with a non-negative
    sub-day part, so its [days] is the floor of the difference. *)
Definition sub_days (a b : datetime) : Z :=
  ((ordinal a - ordinal b) * usec_per_day + (micro_of_day a - micro_of_day b))
    / usec_per_day.

(** [a < b] on datetimes. *)
Definition datetime_lt (a b : datetime) : Prop :=
  ordinal a < ordinal b \/ (ordinal a = ordinal b /\ micro_of_day a < micro_of_day b).

(** [dt.strftime("%Y-%m-%d")]. *)
Definition strftime_Ymd (dt : datetime) : string :=
  let '(y, m, d) := ord2ymd (ordinal dt) in
  format_0d 4 y +:+ "-" +:+ format_0d 2 m +:+ "-" +:+ format_0d 2 d.

Definition month_abbr (m : Z) : string :=
  match m with
  | 1 => "Jan" | 2 => "Feb" | 3 => "Mar" | 4 => "Apr" | 5 => "May"
  | 6 => "Jun" | 7 => "Jul" | 8 => "Aug" | 9 => "Sep" | 10 => "Oct"
  | 11 => "Nov" | _ => "Dec"
  end.

(** [dt.strftime("%b %d")]. *)
Definition strftime_bd (dt : datetime) : string :=
  let '(_, m, d) := ord2ymd (ordinal dt) in
  month_abbr m +:+ " " +:+ format_0d 2 d.

(** The directives of [strptime], each as the regular expression the
    library compiles it to, tried on the front of the input. *)

(** [%Y]: four digits. *)
Definition parse_Y (s : string) : option (Z * string) :=
  match s with
  | String a (String b (String c (String d rest))) =>
      match digit_val a, digit_val b, digit_val c, digit_val d with
      | Some x3, Some x2, Some x1, Some x0 =>
          Some (1000 * x3 + 100 * x2 + 10 * x1 + x0, rest)
      | _, _, _, _ => None
      end
  | _ => None
  end.

Definition two_digits (lo hi : Z) (s : string) : option (Z * string) :=
  match s with
  | String a (String b rest) =>
      match digit_val a, digit_val b with
      | Some x1, Some x0 =>
          let v := 10 * x1 + x0 in
          if (lo <=? v) && (v <=? hi) then Some (v, rest) else None
      | _, _ => None
      end
  | _ => None
  end.

Definition one_digit (s : string) : option (Z * string) :=
  match s with
  | String a rest =>
      match digit_val a with
      | Some x => if 1 <=? x then Some (x, rest) else None
      | None => None
      end
  | _ => None
  end.

Definition or_else {A} (a b : option A) : option A :=
  match a with Some _ => a | None => b end.

(** [%m]: [1[0-2]|0[1-9]|[1-9]]. *)
Definition parse_m (s : string) : option (Z * string) :=
  or_else (two_digits 10 12 s) (or_else (two_digits 1 9 s) (one_digit s)).

(** [%d]: [3[01]|[12]\d|0[1-9]|[1-9]| [1-9]]. *)
Definition parse_d (s : string) : option (Z * string) :=
  or_else (two_digits 30 31 s)
    (or_else (two_digits 10 29 s)
      (or_else (two_digits 1 9 s)
        (or_else (one_digit s)
          (match s with
           | String " " rest => one_digit rest
           | _ => None
           end)))).

Definition parse_dash (s : string) : option string :=
  match s with
  | String "-" rest => Some rest
  | _ => None
  end.

(** The end of [strptime]: nothing may remain, and the fields must name a
    day that exists. *)
Definition build_datetime (fields : option (Z * Z * Z * string)) : result datetime :=
  match fields with
  | Some (y, m, d, EmptyString) =>
      if valid_ymd y m d then Ok (midnight (ymd2ord y m d))
      else Raise (ValueError "day is out of range for month")
  | Some (_, _, _, String _ _) => Raise (ValueError "unconverted data remains")
  | None => Raise (ValueError "time data does not match format")
  end.

(** [datetime.strptime(s, "%Y-%m-%d")]. *)
Definition strptime_Ymd (s : string) : result datetime :=
  build_datetime
    ('(y, s1) ← parse_Y s; s2 ← parse_dash s1;
     '(m, s3) ← parse_m s2; s4 ← parse_dash s3;
     '(d, s5) ← parse_d s4; Some (y, m, d, s5)).

(** [datetime.strptime(s, "%d-%m-%Y")]. *)
Definition strptime_dmY (s : string) : result datetime :=
  build_datetime
    ('(d, s1) ← parse_d s; s2 ← parse_dash s1;
     '(m, s3) ← parse_m s2; s4 ← parse_dash s3;
     '(y, s5) ← parse_Y s4; Some (y, m, d, s5)).

End Datetime.

Export Datetime.

(** ** The values the program passes around *)

(** The dictionary of [Set.get_learning_event]. *)
Record learning_event : Type := mk_learning_event {
  le_date : datetime;
  le_set_name : string
}.

(** One dictionary of [Set.get_review_events]. *)
Record review_event : Type := mk_review_event {
  re_date : datetime;
  re_set_name : string;
  re_review_number : Z
}.

(** An element of [Set.get_all_events]: the ["action_type"] key tells the
    two dictionaries apart. *)
Inductive event : Type :=
  | Learn (e : learning_event)
  | Review (e : review_event).

Definition event_date (ev : event) : datetime :=
  match ev with Learn e => le_date e | Review e => re_date e end.

(** The dictionary that [Set.to_dict] writes. *)
Record set_dict : Type := mk_set_dict {
  sd_set : string;
  sd_learned_on : string;
  sd_review_days : list string
}.

(** One value of the dictionary built by [get_events_by_date]. *)
Record day_entry : Type := mk_day_entry {
  New_Words : option string;
  Reviews : list string
}.

(** One element of the flat activity list. *)
Record activity : Type := mk_activity {
  Date : string;
  Action : string
}.

(** One row of the table handed to [pd.DataFrame]. *)
Record display_row : Type := mk_display_row {
  row_Date : string;
  row_New_Words : string;
  row_Reviews : string
}.

(** The dictionary that [G5Schedule.to_dict] writes as JSON. *)
Record schedule_dict : Type := mk_schedule_dict {
  d_sets : list set_dict;
  d_start_date : string;
  d_full_schedule : list activity
}.

(** An [icalendar] component is the sequence of its [add] calls; a value is
    a text or a day. *)
Inductive ical_value : Type :=
  | TextValue (s : string)
  | DateValue (day : Z).

Record ical_event : Type := mk_ical_event {
  ev_properties : list (string * ical_value)
}.

Record ical_calendar : Type := mk_ical_calendar {
  cal_properties : list (string * ical_value);
  cal_components : list ical_event
}.

(** ** The world outside the program *)

Inductive file_data : Type :=
  | OpenedFile                       (* opened for writing, nothing complete in it *)
  | JsonFile (data : schedule_dict)
  | IcsFile (cal : ical_calendar).

Record world : Type := mk_world {
  files : gmap string file_data;     (* the file system *)
  written : list (string * file_data); (* completed writes, latest first *)
  stdout : list string;              (* printed lines, latest first *)
  open_refused : string -> bool;     (* paths that [open(path, "w")] cannot open *)
  write_refused : string -> bool;    (* paths whose write fails after opening *)
  icalendar_installed : bool;        (* whether [import icalendar] succeeds *)
  uuid4_source : nat -> string;      (* what [uuid.uuid4()] returns, call by call *)
  uuid4_calls : nat                  (* how many identifiers were drawn so far *)
}.

(** A computation that reads and changes the world and may raise. *)
Definition io (A : Type) : Type := world -> result A * world.

Definition io_ret {A} (a : A) : io A := fun w => (Ok a, w).

Definition io_raise {A} (e : exn) : io A := fun w => (Raise e, w).

Definition io_bind {A B} (c : io A) (k : A -> io B) : io B :=
  fun w => match c w with
           | (Ok a, w') => k a w'
           | (Raise e, w') => (Raise e, w')
           end.

Definition io_lift {A} (r : result A) : io A := fun w => (r, w).

Notation "'let*' x ':=' c 'in' k" := (io_bind c (fun x => k))
  (at level 10, x pattern, c at level 100, k at level 200).

(** The world with one field replaced. *)

Definition with_files (f : gmap string file_data) (w : world) : world :=
  {| files := f; written := written w; stdout := stdout w;
     open_refused := open_refused w; write_refused := write_refused w;
     icalendar_installed := icalendar_installed w;
     uuid4_source := uuid4_source w; uuid4_calls := uuid4_calls w |}.

Definition with_written (l : list (string * file_data)) (w : world) : world :=
  {| files := files w; written := l; stdout := stdout w;
     open_refused := open_refused w; write_refused := write_refused w;
     icalendar_installed := icalendar_installed w;
     uuid4_source := uuid4_source w; uuid4_calls := uuid4_calls w |}.

Definition with_stdout (l : list string) (w : world) : world :=
  {| files := files w; written := written w; stdout := l;
     open_refused := open_refused w; write_refused := write_refused w;
     icalendar_installed := icalendar_installed w;
     uuid4_source := uuid4_source w; uuid4_calls := uuid4_calls w |}.

Definition with_uuid4_calls (n : nat) (w : world) : world :=
  {| files := files w; written := written w; stdout := stdout w;
     open_refused := open_refused w; write_refused := write_refused w;
     icalendar_installed := icalendar_installed w;
     uuid4_source := uuid4_source w; uuid4_calls := n |}.

Definition print (line : string) : io unit :=
  fun w => (Ok tt, with_stdout (line :: stdout w) w).

(** [open(path, "w")]: the file exists and is empty afterwards. *)
Definition open_for_writing (path : string) : io unit :=
  fun w => if open_refused w path
           then (Raise (OSError "cannot open file"), w)
           else (Ok tt, with_files (<[path := OpenedFile]> (files w)) w).

(** Writing the whole content and closing the file. *)
Definition write_and_close (path : string) (data : file_data) : io unit :=
  fun w => if write_refused w path
           then (Raise (OSError "cannot write file"), w)
           else (Ok tt, with_written ((path, data) :: written w)
                          (with_files (<[path := data]> (files w)) w)).

(** [str(uuid.uuid4())]. *)
Definition uuid4 : io string :=
  fun w => (Ok (uuid4_source w (uuid4_calls w)), with_uuid4_calls (S (uuid4_calls w)) w).

(** [from icalendar import Calendar, Event]. *)
Definition import_icalendar : io unit :=
  fun w => if icalendar_installed w then (Ok tt, w)
           else (Raise (ImportError "No module named 'icalendar'"), w).

(** ** [class Set] *)

Module G5Set.

Record t : Type := mk {
  name : string;
  learn_date : datetime
}.

(** [Set(name, learn_date)]. *)
Definition init (name : string) (learn_date : datetime) : t :=
  {| name := name; learn_date := learn_date |}.

(** [self.review_days]: assigned by the constructor, the same list for
    every set, and never assigned again. *)
Definition review_days (self : t) : list Z := [2; 4; 8; 15].

Definition get_learning_event (self : t) : learning_event :=
  {| le_date := learn_date self; le_set_name := name self |}.

Definition get_review_events (self : t) : result (list review_event) :=
  result_mapM (fun '(i, days_offset) =>
                 review_date ← add_days (learn_date self) (days_offset - 1);
                 Ok {| re_date := review_date;
                       re_set_name := name self;
                       re_review_number := Z.of_nat i + 1 |})
              (enumerate (review_days self)).

Definition get_all_events (self : t) : result (list event) :=
  reviews ← get_review_events self;
  Ok ([Learn (get_learning_event self)] ++ map Review reviews).

Definition to_dict (self : t) : result set_dict :=
  let learned_on := strftime_Ymd (learn_date self) in
  review_days ← result_mapM (fun day =>
                               d ← add_days (learn_date self) (day - 1);
                               Ok (strftime_Ymd d))
                            (review_days self);
  Ok {| sd_set := name self;
        sd_learned_on := learned_on;
        sd_review_days := review_days |}.


End G5Set.

(** ** [export_to_ical] of [icalendar_export.py] *)

Module ICalExport.
Import Text.

(** The [if]/[elif] chain that adds the emoji title and the colour. *)
Definition category_properties (action : string) : list (string * ical_value) :=
  if contains "Learn" action then
    [("summary", TextValue ("📚 " +:+ action)); ("color", TextValue "9")]
  else if contains "(R1)" action then
    [("summary", TextValue ("🔍 " +:+ action)); ("color", TextValue "5")]
  else if contains "(R2)" action then
    [("summary", TextValue ("🔄 " +:+ action)); ("color", TextValue "5")]
  else if contains "(R3)" action then
    [("summary", TextValue ("📝 " +:+ action)); ("color", TextValue "7")]
  else if contains "(R4)" action then
    [("summary", TextValue ("✅ " +:+ action)); ("color", TextValue "11")]
  else [].

(** The body of the loop: one [Event] per activity. *)
Definition event_of_activity (a : activity) : io ical_event :=
  let date_str := Date a in
  let action := Action a in
  let* date := io_lift (strptime_Ymd date_str) in
  let* dtend := io_lift (date_add_days (ordinal date) 1) in
  let* uid := uuid4 in
  io_ret {| ev_properties :=
              [("summary", TextValue action);
               ("dtstart", DateValue (ordinal date));
               ("dtend", DateValue dtend)]
              ++ category_properties action
              ++ [("description", TextValue ("G5 Spaced Repetition - " +:+ action));
                  ("uid", TextValue uid)] |}.

Fixpoint add_events (schedule : list activity) (cal : ical_calendar) : io ical_calendar :=
  match schedule with
  | [] => io_ret cal
  | a :: rest =>
      let* event := event_of_activity a in
      add_events rest {| cal_properties := cal_properties cal;
                         cal_components := cal_components cal ++ [event] |}
  end.

Definition new_calendar : ical_calendar :=
  {| cal_properties :=
       [("prodid", TextValue "-//G5 Schedule Generator//g5_generator.py//EN");
        ("version", TextValue "2.0")];
     cal_components := [] |}.

(** The [try] block. *)
Definition export_body (schedule : list activity) (output_file : string) : io bool :=
  let* _ := import_icalendar in
  let* cal := add_events schedule new_calendar in
  let* _ := open_for_writing output_file in
  let* _ := write_and_close output_file (IcsFile cal) in
  io_ret true.

(** The [try] block with its two handlers. *)
Definition export_to_ical (schedule : list activity) (output_file : string) : io bool :=
  fun w =>
    match export_body schedule output_file w with
    | (Ok b, w') => (Ok b, w')
    | (Raise (ImportError _), w') =>
        (let* _ := print "Could not create iCalendar file: icalendar package not installed" in
         let* _ := print "Install with: pip install icalendar" in
         io_ret false) w'
    | (Raise e, w') =>
        (let* _ := print ("Error creating iCalendar file: " +:+ exn_message e) in
         io_ret false) w'
    end.

End ICalExport.

(** ** [class G5Schedule] *)

(** [sorted] on the items of a dictionary compares the keys, which differ. *)
Definition item_le {V} (a b : string * V) : Prop := String.le a.1 b.1.

Global Instance item_le_dec {V} (a b : string * V) : Decision (item_le a b).
Proof. unfold item_le. apply _. Defined.

Definition sorted_items {V} (m : gmap string V) : list (string * V) :=
  merge_sort item_le (map_to_list m).

Module G5Schedule.
Import Text.

Record t : Type := mk {
  start_date : datetime;
  sets : list G5Set.t
}.

(** [G5Schedule(start_date)]. *)
Definition init (start_date : datetime) : t :=
  {| start_date := start_date; sets := [] |}.

(** [range(n)]. *)
Definition range (n : Z) : list Z := seqZ 0 n.

(** The loop of [add_new_sets]: what it returns or raises, and the schedule
    it leaves behind, which keeps the sets appended before an exception. *)
Fixpoint add_new_sets_loop (self : t) (starting_set_number : Z) (indices : list Z)
  : result unit * t :=
  match indices with
  | [] => (Ok tt, self)
  | i :: rest =>
      let set_index := starting_set_number + i in
      let set_name := "Set " +:+ format_0d 2 set_index in
      match add_days (start_date self) i with
      | Raise e => (Raise e, self)
      | Ok learn_date =>
          add_new_sets_loop
            {| start_date := start_date self;
               sets := sets self ++ [G5Set.init set_name learn_date] |}
            starting_set_number rest
      end
  end.

Definition add_new_sets (self : t) (new_sets_count starting_set_number : Z)
  : result unit * t :=
  add_new_sets_loop self starting_set_number (range new_sets_count).

Definition review_text (review : review_event) : string :=
  re_set_name review +:+ " (R" +:+ str_int (re_review_number review) +:+ ")".

(** The body of the inner loop of [get_events_by_date]. *)
Definition record_event (events_by_date : gmap string day_entry) (ev : event)
  : gmap string day_entry :=
  let date_str := strftime_Ymd (event_date ev) in
  let events_by_date :=
    match events_by_date !! date_str with
    | None => <[date_str := {| New_Words := None; Reviews := [] |}]> events_by_date
    | Some _ => events_by_date
    end in
  match ev with
  | Learn e =>
      alter (fun entry => {| New_Words := Some (le_set_name e);
                             Reviews := Reviews entry |})
            date_str events_by_date
  | Review e =>
      alter (fun entry => {| New_Words := New_Words entry;
                             Reviews := Reviews entry ++ [review_text e] |})
            date_str events_by_date
  end.

Definition get_events_by_date (self : t) : result (gmap string day_entry) :=
  result_foldl (fun events_by_date set_obj =>
                  events ← G5Set.get_all_events set_obj;
                  Ok (foldl record_event events_by_date events))
               ∅ (sets self).

Definition get_activity_list (self : t) : result (list activity) :=
  result_foldl (fun activities set_obj =>
                  let learning := G5Set.get_learning_event set_obj in
                  let activities :=
                    activities ++ [{| Date := strftime_Ymd (le_date learning);
                                      Action := "Learn " +:+ le_set_name learning |}] in
                  reviews ← G5Set.get_review_events set_obj;
                  Ok (foldl (fun activities review =>
                               activities
                                 ++ [{| Date := strftime_Ymd (re_date review);
                                        Action := "Review " +:+ re_set_name review +:+ " (R"
                                                  +:+ str_int (re_review_number review)
                                                  +:+ ")" |}])
                            activities reviews))
               [] (sets self).

Definition new_words_cell (new_words : option string) : string :=
  match new_words with
  | Some (String c rest) => String c rest
  | Some EmptyString | None => "-"
  end.

Definition reviews_cell (reviews : list string) : string :=
  match reviews with
  | [] => "-"
  | _ :: _ => join ", " reviews
  end.

(** The body of the loop of [to_dataframe]. *)
Definition display_row_of (self : t) (day_offset : Z) (item : string * day_entry)
  : result display_row :=
  let '(date_str, activities) := item in
  date ← strptime_Ymd date_str;
  let day_number := sub_days date (start_date self) + 1 + day_offset in
  let formatted_date := strftime_bd date +:+ " (D" +:+ str_int day_number +:+ ")" in
  Ok {| row_Date := formatted_date;
        row_New_Words := new_words_cell (New_Words activities);
        row_Reviews := reviews_cell (Reviews activities) |}.

Definition to_dataframe (self : t) (day_offset : Z) : result (list display_row) :=
  events_by_date ← get_events_by_date self;
  result_mapM (display_row_of self day_offset) (sorted_items events_by_date).

Definition to_dict (self : t) : result schedule_dict :=
  set_dicts ← result_mapM G5Set.to_dict (sets self);
  let start := strftime_Ymd (start_date self) in
  full_schedule ← get_activity_list self;
  Ok {| d_sets := set_dicts; d_start_date := start; d_full_schedule := full_schedule |}.

(** The file is opened, and so emptied, before [to_dict] is evaluated. *)
Definition save_to_json (self : t) (json_path : string) : io unit :=
  let* _ := open_for_writing json_path in
  let* data := io_lift (to_dict self) in
  write_and_close json_path (JsonFile data).

Definition export_to_ical (self : t) (output_file : string) : io bool :=
  let* activities := io_lift (get_activity_list self) in
  ICalExport.export_to_ical activities output_file.

End G5Schedule.

(** ** [generate_g5_schedule] of [cli.py] *)

Module Cli.

(** What the function returns: the table alone, or the table with the
    schedule and the set number. *)
Inductive generated : Type :=
  | Frame (df : list display_row)
  | FrameAndSchedule (df : list display_row) (schedule : G5Schedule.t) (set_number : Z).

(** The [try] block. *)
Definition generate_body (start_date_str : string) (new_sets set_number : Z)
    (json_path : string) (return_schedule : bool) : io generated :=
  let* given_date := io_lift (strptime_dmY start_date_str) in
  if new_sets <=? 0 then io_raise (ValueError "Number of new sets must be positive")
  else if set_number <? 1 then io_raise (ValueError "Set number must be positive")
  else
    let schedule := G5Schedule.init given_date in
    let '(added, schedule) := G5Schedule.add_new_sets schedule new_sets set_number in
    let* _ := io_lift added in
    let* _ := G5Schedule.save_to_json schedule json_path in
    let day_offset := set_number - 1 in
    let* df := io_lift (G5Schedule.to_dataframe schedule day_offset) in
    if return_schedule then io_ret (FrameAndSchedule df schedule set_number)
    else io_ret (Frame df).

(** The [try] block with its handler, which prints and raises again. *)
Definition generate_g5_schedule (start_date_str : string) (new_sets set_number : Z)
    (json_path : string) (return_schedule : bool) : io generated :=
  fun w =>
    match generate_body start_date_str new_sets set_number json_path return_schedule w with
    | (Ok v, w') => (Ok v, w')
    | (Raise e, w') =>
        (let* _ := print ("Error generating schedule: " +:+ exn_message e) in
         io_raise e) w'
    end.

End Cli.

(** ** [main] of [cli.py], from the parsed arguments on *)

Module CliMain.
Import Text.

(** The namespace that [parser.parse_args()] returns. *)
Record args : Type := mk_args {
  start_date : string;
  num_sets : Z;
  set_number : Z;
  output : string;
  calendar : option string    (* [None] when [-c] is not given *)
}.

(** [c.lower()] on one character of the ASCII range.  The other characters
    are left as they are: none of them lowercases to one of the characters
    of [.ics] alone, so the test on the extension does not depend on them. *)
Definition lower_char (c : ascii) : ascii :=
  let n := N_of_ascii c in
  if ((65 <=? n) && (n <=? 90))%N then ascii_of_N (n + 32) else c.

(** [s.lower()]. *)
Fixpoint lower (s : string) : string :=
  match s with
  | EmptyString => EmptyString
  | String c rest => String (lower_char c) (lower rest)
  end.

(** [s.endswith(suffix)]. *)
Fixpoint endswith (s suffix : string) : bool :=
  String.eqb s suffix
  || match s with
     | EmptyString => false
     | String _ rest => endswith rest suffix
     end.

(** The path the calendar is written to: [.ics] is added when missing. *)
Definition calendar_path_of (calendar : string) : string :=
  if negb (endswith (lower calendar) ".ics") then calendar +:+ ".ics" else calendar.

Definition import_instructions (calendar_path : string) : list string :=
  [ "Schedule exported to iCalendar: " +:+ calendar_path;
    "You can import this file into Google Calendar:";
    "1. Go to Google Calendar website";
    "2. Click the '+' button next to 'Other calendars'";
    "3. Select 'Import'";
    "4. Upload the .ics file" ].

Fixpoint print_all (lines : list string) : io unit :=
  match lines with
  | [] => io_ret tt
  | line :: rest => let* _ := print line in print_all rest
  end.

Section WithPandas.

(** [df.to_string(index=False)], which is pandas' business. *)
Variable to_string : list display_row -> string.

(** The [if args.calendar:] block. *)
Definition export_if_requested (a : args) (schedule : G5Schedule.t) : io unit :=
  match calendar a with
  | Some (String c rest) =>
      let calendar_path := calendar_path_of (String c rest) in
      let* exported := G5Schedule.export_to_ical schedule calendar_path in
      if exported then print_all (import_instructions calendar_path) else io_ret tt
  | Some EmptyString | None => io_ret tt
  end.

(** The [try] block. *)
Definition main_body (a : args) : io (option (list display_row)) :=
  let* result :=
    Cli.generate_g5_schedule (start_date a) (num_sets a) (set_number a) (output a) true in
  match result with
  | Cli.FrameAndSchedule df schedule _ =>
      let* _ := print (String "010" ("G5 Schedule (saved to " +:+ output a +:+ "):")) in
      let* _ := print ("Starting with Set " +:+ format_0d 2 (set_number a)
                       +:+ " on " +:+ start_date a) in
      let* _ := print (to_string df) in
      let* _ := export_if_requested a schedule in
      io_ret (Some df)
  | Cli.Frame _ =>
      (* not returned when [return_schedule] is true: the unpacking would fail *)
      io_raise (ValueError "not enough values to unpack")
  end.

(** The [try] block with its handler: the table, or [None]. *)
Definition main (a : args) : io (option (list display_row)) :=
  fun w =>
    match main_body a w with
    | (Ok df, w') => (Ok df, w')
    | (Raise e, w') =>
        (let* _ := print ("Failed to generate schedule: " +:+ exn_message e) in
         io_ret None) w'
    end.

End WithPandas.

End CliMain.

(** ** Notions used to state the properties *)

(** The four reviews of a set, on the day line. *)
Definition set_reviews (s : G5Set.t) : list review_event :=
  let d := G5Set.learn_date s in
  let n := G5Set.name s in
  [ {| re_date := plus_days d 1; re_set_name := n; re_review_number := 1 |};
    {| re_date := plus_days d 3; re_set_name := n; re_review_number := 2 |};
    {| re_date := plus_days d 7; re_set_name := n; re_review_number := 3 |};
    {| re_date := plus_days d 14; re_set_name := n; re_review_number := 4 |} ].

(** The events of a set: learning, then the four reviews. *)
Definition set_events (s : G5Set.t) : list event :=
  Learn (G5Set.get_learning_event s) :: map Review (set_reviews s).

(** Every event of a list of sets, set by set. *)
Definition all_events (ss : list G5Set.t) : list event :=
  concat (map set_events ss).

(** A set whose learning day and last review day both exist. *)
Definition set_in_range (s : G5Set.t) : Prop :=
  1 <= ordinal (G5Set.learn_date s) /\ ordinal (G5Set.learn_date s) + 14 <= Calendar.max_ordinal.

Definition in_range (ss : list G5Set.t) : Prop :=
  forall s, s ∈ ss -> set_in_range s.

Definition on_date (k : string) (ev : event) : Prop :=
  strftime_Ymd (event_date ev) = k.

Global Instance on_date_dec k ev : Decision (on_date k ev).
Proof. unfold on_date. apply _. Defined.

(** The name of the last set, in list order, that is learned on the day
    written [k]. *)
Definition new_words_on (k : string) (ss : list G5Set.t) : option string :=
  last (map G5Set.name (filter (fun s => strftime_Ymd (G5Set.learn_date s) = k) ss)).

(** The review labels of the day written [k]: set by set, and within a set
    by review number. *)
Definition reviews_on (k : string) (ss : list G5Set.t) : list string :=
  map G5Schedule.review_text
      (filter (fun r => strftime_Ymd (re_date r) = k)
              (concat (map set_reviews ss))).

Definition empty_entry : day_entry := {| New_Words := None; Reviews := [] |}.

Definition apply_event (entry : day_entry) (ev : event) : day_entry :=
  match ev with
  | Learn e => {| New_Words := Some (le_set_name e); Reviews := Reviews entry |}
  | Review e => {| New_Words := New_Words entry;
                   Reviews := Reviews entry ++ [G5Schedule.review_text e] |}
  end.

Definition learn_name (ev : event) : option string :=
  match ev with Learn e => Some (le_set_name e) | Review _ => None end.

Definition review_of (ev : event) : option review_event :=
  match ev with Learn _ => None | Review e => Some e end.

(** The [i]-th set that [add_new_sets] appends. *)
Definition new_set (start : datetime) (k i : Z) : G5Set.t :=
  G5Set.init ("Set " +:+ Text.format_0d 2 (k + i)) (plus_days start i).

(** The body of the outer loop of [get_activity_list]. *)
Definition activity_step (activities : list activity) (set_obj : G5Set.t)
  : result (list activity) :=
  let learning := G5Set.get_learning_event set_obj in
  let activities :=
    activities ++ [{| Date := strftime_Ymd (le_date learning);
                      Action := "Learn " +:+ le_set_name learning |}] in
  reviews ← G5Set.get_review_events set_obj;
  Ok (foldl (fun activities review =>
               activities
                 ++ [{| Date := strftime_Ymd (re_date review);
                        Action := "Review " +:+ re_set_name review +:+ " (R"
                                  +:+ Text.str_int (re_review_number review)
                                  +:+ ")" |}])
            activities reviews).

(** The body of the outer loop of [get_events_by_date]. *)
Definition events_step (events_by_date : gmap string day_entry) (set_obj : G5Set.t)
  : result (gmap string day_entry) :=
  events ← G5Set.get_all_events set_obj;
  Ok (foldl G5Schedule.record_event events_by_date events).

(** The dictionary that the events of [ss] build, one after the other. *)
Definition events_map (ss : list G5Set.t) : gmap string day_entry :=
  foldl G5Schedule.record_event ∅ (all_events ss).

(** The five activities of one set, in the order the list has them. *)
Definition set_activities (s : G5Set.t) : list activity :=
  let d := G5Set.learn_date s in
  let n := G5Set.name s in
  [ {| Date := strftime_Ymd d; Action := "Learn " +:+ n |};
    {| Date := strftime_Ymd (plus_days d 1); Action := "Review " +:+ n +:+ " (R1)" |};
    {| Date := strftime_Ymd (plus_days d 3); Action := "Review " +:+ n +:+ " (R2)" |};
    {| Date := strftime_Ymd (plus_days d 7); Action := "Review " +:+ n +:+ " (R3)" |};
    {| Date := strftime_Ymd (plus_days d 14); Action := "Review " +:+ n +:+ " (R4)" |} ].

Definition sorted_by_date (l : list activity) : Prop :=
  Sorted (fun a b => String.le (Date a) (Date b)) l.


Definition day_number (self : G5Schedule.t) (day_offset n : Z) : Z :=
  sub_days (midnight n) (G5Schedule.start_date self) + 1 + day_offset.


(** The day that a dictionary key written by [strftime] stands for. *)
Definition key_day (k : string) : Z :=
  match strptime_Ymd k with Ok d => ordinal d | Raise _ => 0 end.

(** An activity the exporter can turn into an event: its date parses, and
    the day after it exists. *)
Definition exportable (a : activity) : Prop :=
  exists d, strptime_Ymd (Date a) = Ok d /\ ordinal d + 1 <= Calendar.max_ordinal.



(** The event the exporter builds for an activity, given its identifier. *)
Definition expected_event (a : activity) (uid : string) : ical_event :=
  {| ev_properties :=
       [("summary", TextValue (Action a));
        ("dtstart", DateValue (key_day (Date a)));
        ("dtend", DateValue (key_day (Date a) + 1))]
       ++ ICalExport.category_properties (Action a)
       ++ [("description", TextValue ("G5 Spaced Repetition - " +:+ Action a));
           ("uid", TextValue uid)] |}.



(** Sample values. *)

Definition last_day : datetime := midnight Calendar.max_ordinal.   (* 9999-12-31 *)

Definition april_7 : datetime := midnight 739348.                   (* 2025-04-07 *)

Definition two_day_schedule : G5Schedule.t :=
  (G5Schedule.add_new_sets (G5Schedule.init april_7) 2 1).2.



Definition quiet_world : world :=
  {| files := ∅; written := []; stdout := [];
     open_refused := fun _ => false; write_refused := fun _ => false;
     icalendar_installed := true;
     uuid4_source := fun n => Text.str_int (Z.of_nat n); uuid4_calls := 0 |}.

(** ** More notions: what the calls leave behind *)

Section MoreNotions.
Import Calendar Text.

(** What [datetime] raises when a sum leaves the calendar. *)
Definition overflow : exn := OverflowError "date value out of range".

(** The dictionary [to_dict] writes for a set whose review days exist. *)
Definition set_dict_of (s : G5Set.t) : set_dict :=
  {| sd_set := G5Set.name s;
     sd_learned_on := strftime_Ymd (G5Set.learn_date s);
     sd_review_days := map (fun r => strftime_Ymd (re_date r)) (set_reviews s) |}.

(** Sample values. *)
Definition late_set : G5Set.t := G5Set.init "Set 01" last_day.




(** A set whose last review day is past the end of the calendar. *)
Definition late (s : G5Set.t) : Prop := max_ordinal < ordinal (G5Set.learn_date s) + 14.

Global Instance late_dec s : Decision (late s).
Proof. unfold late. apply _. Defined.

(** The sets that [add_new_sets] appends for the indices [0 .. n-1]. *)
Definition batch (start : datetime) (k n : Z) : list G5Set.t :=
  map (new_set start k) (G5Schedule.range n).

(** The dictionary [G5Schedule.to_dict] writes when every set is in range. *)
Definition schedule_dict_of (self : G5Schedule.t) : schedule_dict :=
  {| d_sets := map set_dict_of (G5Schedule.sets self);
     d_start_date := strftime_Ymd (G5Schedule.start_date self);
     d_full_schedule := concat (map set_activities (G5Schedule.sets self)) |}.

(** The activities that one set's dictionary stands for. *)
Definition activities_of_dict (sd : set_dict) : list activity :=
  {| Date := sd_learned_on sd; Action := "Learn " +:+ sd_set sd |}
  :: imap (fun i day =>
             {| Date := day;
                Action := "Review " +:+ sd_set sd +:+ " (R"
                          +:+ str_int (Z.of_nat i + 1) +:+ ")" |})
          (sd_review_days sd).

(** An activity whose date is written the other way round, and one as the
    program writes it. *)
Definition bad_date : activity := {| Date := "07-04-2025"; Action := "Learn Set 01" |}.

Definition good_date : activity := {| Date := "2025-04-07"; Action := "Learn Set 01" |}.

(** A world in which [path] holds an earlier file and cannot be written. *)
Definition full_disk (path : string) (old : file_data) : world :=
  {| files := {[ path := old ]}; written := []; stdout := [];
     open_refused := fun _ => false; write_refused := fun p => String.eqb p path;
     icalendar_installed := true;
     uuid4_source := fun n => Text.str_int (Z.of_nat n); uuid4_calls := 0 |}.

(** A file written by an earlier run. *)
Definition old_calendar : file_data := IcsFile ICalExport.new_calendar.


(** What the exporter's loop raises: the parser's error or the calendar's. *)
Definition conversion_error (e : exn) : Prop :=
  e = overflow \/ exists msg, e = ValueError msg.

(** The world after the schedule was saved at [json_path]. *)
Definition saved (self : G5Schedule.t) (json_path : string) (w : world) : world :=
  with_written ((json_path, JsonFile (schedule_dict_of self)) :: written w)
    (with_files (<[json_path := JsonFile (schedule_dict_of self)]> (files w)) w).

(** The world after [path] was opened for writing and nothing written. *)
Definition emptied (path : string) (w : world) : world :=
  with_files (<[path := OpenedFile]> (files w)) w.

(** A world in which [path] holds an earlier file. *)
Definition holding (path : string) (old : file_data) : world :=
  {| files := {[ path := old ]}; written := []; stdout := [];
     open_refused := fun _ => false; write_refused := fun _ => false;
     icalendar_installed := true;
     uuid4_source := fun n => Text.str_int (Z.of_nat n); uuid4_calls := 0 |}.

(** A schedule whose only set is learned on the last day of the calendar. *)
Definition late_schedule : G5Schedule.t :=
  {| G5Schedule.start_date := last_day; G5Schedule.sets := [late_set] |}.




(** The schedule that [generate_g5_schedule] builds from day [o]. *)
Definition generated_schedule (o new_sets set_number : Z) : G5Schedule.t :=
  {| G5Schedule.start_date := midnight o;
     G5Schedule.sets := batch (midnight o) set_number new_sets |}.


(** [w'] differs from [w] in the files named in [ps] at most, and in what
    was printed, logged and drawn. *)
Definition same_except (ps : list string) (w w' : world) : Prop :=
  (forall p, p ∉ ps -> files w' !! p = files w !! p)
  /\ open_refused w' = open_refused w
  /\ write_refused w' = write_refused w
  /\ icalendar_installed w' = icalendar_installed w
  /\ uuid4_source w' = uuid4_source w.

(** A computation that touches the files named in [ps] at most. *)
Definition io_frame {A} (ps : list string) (c : io A) : Prop :=
  forall w, same_except ps w (c w).2.

(** The files that [main] may write to. *)
Definition output_files (a : CliMain.args) : list string :=
  CliMain.output a
  :: match CliMain.calendar a with
     | Some c => [CliMain.calendar_path_of c]
     | None => []
     end.

(** A computation that prints nothing. *)
Definition io_quiet {A} (c : io A) : Prop := forall w, stdout (c w).2 = stdout w.


(** Sample arguments, a world without the package, and a stand-in for
    [df.to_string]. *)
Definition sample_args : CliMain.args :=
  {| CliMain.start_date := "07-04-2025"; CliMain.num_sets := 1; CliMain.set_number := 1;
     CliMain.output := "g5.json"; CliMain.calendar := Some "My.ICS" |}.


Definition sample_to_string (df : list display_row) : string :=
  join (String "010" EmptyString)
       (map (fun r => row_Date r +:+ " " +:+ row_New_Words r +:+ " " +:+ row_Reviews r) df).

(** [c in s] for one character. *)
Fixpoint occurs (c : ascii) (s : string) : bool :=
  match s with
  | EmptyString => false
  | String x rest => Ascii.eqb x c || occurs c rest
  end.

(** The title and colour that each of a set's five activities should get. *)
Definition titles_of_set (name : string) : list (list (string * ical_value)) :=
  [ [("summary", TextValue ("📚 " +:+ "Learn " +:+ name)); ("color", TextValue "9")];
    [("summary", TextValue ("🔍 " +:+ "Review " +:+ name +:+ " (R1)")); ("color", TextValue "5")];
    [("summary", TextValue ("🔄 " +:+ "Review " +:+ name +:+ " (R2)")); ("color", TextValue "5")];
    [("summary", TextValue ("📝 " +:+ "Review " +:+ name +:+ " (R3)")); ("color", TextValue "7")];
    [("summary", TextValue ("✅ " +:+ "Review " +:+ name +:+ " (R4)")); ("color", TextValue "11")] ].

End MoreNotions.

(** * Facts about the model *)

(** ** The calendar: [ord2ymd] and [ymd2ord] are inverse, and [ymd2ord]
    follows the order of (year, month, day) *)

Module CalendarFacts.
Import Calendar.

Lemma month_day_ok_all leap n :
0 <= n < 365 + leap_extra leap -> month_day_ok leap n = true.
Proof.
intros Hn.
assert (H : forallb (month_day_ok leap) (seqZ 0 (365 + leap_extra leap)) = true)
  by (destruct leap; vm_compute; reflexivity).
rewrite forallb_forall in H. apply H.
apply list_elem_of_In, elem_of_seqZ. lia.
Qed.

Lemma ord2ymd_year n :
let n0 := n - 1 in
let r := n0 mod 146097 in
let r2 := r mod 36524 in
let r3 := r2 mod 1461 in
let n400 := n0 / 146097 in
let n100 := r / 36524 in
let n4 := r2 / 1461 in
let n1 := r3 / 365 in
let r4 := r3 mod 365 in
let year := n400 * 400 + 1 + n100 * 100 + n4 * 4 + n1 in
0 <= n100 <= 4 /\ 0 <= n4 <= 24 /\ 0 <= n1 <= 4 /\ 0 <= r4 < 365 /\
(n100 = 4 -> n4 = 0 /\ n1 = 0 /\ r4 = 0) /\
(n1 = 4 -> r4 = 0 /\ n4 <= 23) /\
n - 1 = n400 * 146097 + n100 * 36524 + n4 * 1461 + n1 * 365 + r4.
Proof.
intros. subst n0 r r2 r3 n400 n100 n4 n1 r4 year.
Z.div_mod_to_equations. lia.
Qed.

Lemma days_before_year_split a b c d :
0 <= b <= 3 -> 0 <= c <= 24 -> 0 <= d <= 3 ->
days_before_year (a * 400 + 1 + b * 100 + c * 4 + d)
= a * 146097 + b * 36524 + c * 1461 + d * 365.
Proof.
intros. unfold days_before_year. Z.div_mod_to_equations. lia.
Qed.

Lemma is_leap_split a b c d :
0 <= b <= 3 -> 0 <= c <= 24 -> 0 <= d <= 3 ->
is_leap (a * 400 + 1 + b * 100 + c * 4 + d)
= (d =? 3) && (negb (c =? 24) || (b =? 3)).
Proof.
intros. unfold is_leap.
apply eq_true_iff_eq.
rewrite !andb_true_iff, !orb_true_iff, !negb_true_iff, !Z.eqb_eq, !Z.eqb_neq.
Z.div_mod_to_equations. lia.
Qed.

Lemma days_in_month_leap_extra y m :
days_in_month y m
= (if m =? 2 then 28 + leap_extra (is_leap y)
   else if (m =? 4) || (m =? 6) || (m =? 9) || (m =? 11) then 30 else 31).
Proof. unfold days_in_month, leap_extra. destruct (m =? 2), (is_leap y); reflexivity. Qed.

Lemma ord2ymd_spec n :
let '(y, m, d) := ord2ymd n in day_valid y m d /\ ymd2ord y m d = n.
Proof.
pose proof (ord2ymd_year n) as H. cbv zeta in H.
unfold ord2ymd.
set (n400 := (n - 1) / 146097) in *.
set (r := (n - 1) mod 146097) in *.
set (n100 := r / 36524) in *.
set (r2 := r mod 36524) in *.
set (n4 := r2 / 1461) in *.
set (r3 := r2 mod 1461) in *.
set (n1 := r3 / 365) in *.
set (r4 := r3 mod 365) in *.
destruct H as (H100 & H4 & H1 & Hr4 & Hb100 & Hb1 & Hn).
destruct ((n1 =? 4) || (n100 =? 4)) eqn:Hedge.
- (* the last day of a leap year *)
  apply orb_true_iff in Hedge. rewrite !Z.eqb_eq in Hedge.
  assert (Hy : exists b c, 0 <= b <= 3 /\ 0 <= c <= 24 /\
    n400 * 400 + 1 + n100 * 100 + n4 * 4 + n1 - 1
      = (if decide (n100 = 4) then n400 else n400) * 400 + 1 + b * 100 + c * 4 + 3
    /\ n - 1 = n400 * 146097 + b * 36524 + c * 1461 + 3 * 365 + 365
    /\ (c = 24 -> b = 3)).
  { destruct (decide (n100 = 4)) as [E|E].
    - destruct (Hb100 E) as (-> & -> & ->). exists 3, 24. lia.
    - destruct Hedge as [E1|E1]; [|lia]. specialize (Hb1 E1).
      exists n100, n4. split; [lia|]. split; [lia|]. split; [lia|]. split; [lia|].
      lia. }
  destruct Hy as (b & c & Hb & Hc & Hyear & Hord & Hc24).
  assert (Hyear' : n400 * 400 + 1 + n100 * 100 + n4 * 4 + n1 - 1
                   = n400 * 400 + 1 + b * 100 + c * 4 + 3)
    by (destruct (decide (n100 = 4)); exact Hyear).
  rewrite Hyear'. unfold day_valid, ymd2ord, days_before_month, days_in_month.
  rewrite days_before_year_split, is_leap_split by lia.
  replace (3 =? 3) with true by reflexivity.
  assert (Hl : negb (c =? 24) || (b =? 3) = true).
  { destruct (decide (c = 24)) as [E|E].
    - rewrite (Hc24 E), orb_true_r. reflexivity.
    - apply Z.eqb_neq in E. rewrite E. reflexivity. }
  rewrite Hl. cbn. lia.
- apply orb_false_iff in Hedge. rewrite !Z.eqb_neq in Hedge.
  set (leap := (n1 =? 3) && (negb (n4 =? 24) || (n100 =? 3))).
  assert (Hlr : 0 <= r4 < 365 + leap_extra leap).
  { unfold leap_extra. destruct leap; lia. }
  pose proof (month_day_ok_all leap r4 Hlr) as Hmd.
  unfold month_day_ok in Hmd.
  destruct (month_day leap r4) as [m d].
  rewrite !andb_true_iff, !Z.leb_le, Z.eqb_eq in Hmd.
  destruct Hmd as ((((Hm1 & Hm12) & Hd1) & Hdim) & Hsum).
  unfold day_valid, ymd2ord, days_before_month.
  rewrite days_in_month_leap_extra, days_before_year_split, is_leap_split by lia.
  fold leap. lia.
Qed.

Lemma days_before_year_succ y :
days_before_year (y + 1) = days_before_year y + 365 + leap_extra (is_leap y).
Proof.
unfold days_before_year, leap_extra, is_leap.
destruct (y mod 4 =? 0) eqn:E4, (y mod 100 =? 0) eqn:E100, (y mod 400 =? 0) eqn:E400;
  cbn [andb orb negb];
  rewrite ?Z.eqb_eq, ?Z.eqb_neq in *; Z.div_mod_to_equations; lia.
Qed.

Lemma days_before_year_mono y y' : y <= y' -> days_before_year y <= days_before_year y'.
Proof. unfold days_before_year. intros. Z.div_mod_to_equations. lia. Qed.

Lemma days_before_month_next y m : 1 <= m <= 11 ->
days_before_month y (m + 1) = days_before_month y m + days_in_month y m.
Proof.
intros Hm. unfold days_before_month, days_in_month.
assert (H : m = 1 \/ m = 2 \/ m = 3 \/ m = 4 \/ m = 5 \/ m = 6 \/ m = 7
            \/ m = 8 \/ m = 9 \/ m = 10 \/ m = 11) by lia.
repeat (destruct H as [H|H]; [subst m; cbn; destruct (is_leap y); reflexivity|]).
subst m; cbn; destruct (is_leap y); reflexivity.
Qed.

Lemma days_before_month_last y :
days_before_month y 12 + days_in_month y 12 = 365 + leap_extra (is_leap y).
Proof. unfold days_before_month, days_in_month, leap_extra. cbn. destruct (is_leap y); reflexivity. Qed.

Lemma days_in_month_pos y m : 28 <= days_in_month y m <= 31.
Proof.
unfold days_in_month.
destruct (m =? 2); [destruct (is_leap y); lia|].
destruct ((m =? 4) || (m =? 6) || (m =? 9) || (m =? 11)); lia.
Qed.

Lemma days_before_month_mono y m m' : 1 <= m -> m < m' -> m' <= 12 ->
days_before_month y m + days_in_month y m <= days_before_month y m'.
Proof.
intros H1 Hlt H12.
assert (Hk : forall k : nat, m + 1 + Z.of_nat k <= 12 ->
          days_before_month y (m + 1) <= days_before_month y (m + 1 + Z.of_nat k)).
{ induction k as [|k IH]; intros Hk.
  - replace (m + 1 + Z.of_nat 0) with (m + 1) by lia. lia.
  - replace (m + 1 + Z.of_nat (S k)) with (m + 1 + Z.of_nat k + 1) by lia.
    rewrite (days_before_month_next y (m + 1 + Z.of_nat k)) by lia.
    pose proof (days_in_month_pos y (m + 1 + Z.of_nat k)). lia. }
rewrite <- days_before_month_next by lia.
replace m' with (m + 1 + Z.of_nat (Z.to_nat (m' - m - 1))) by lia.
apply Hk. lia.
Qed.

Lemma days_before_month_nonneg y m : 0 <= days_before_month y m.
Proof.
unfold days_before_month.
assert (0 <= days_before_month_common m).
{ unfold days_before_month_common. destruct m as [|p|p]; try lia.
  repeat (destruct p as [p|p|]; try lia). }
destruct ((2 <? m) && is_leap y); lia.
Qed.

Lemma ymd2ord_year_bounds y m d : day_valid y m d ->
days_before_year y < ymd2ord y m d <= days_before_year (y + 1).
Proof.
intros [Hm Hd]. unfold ymd2ord.
pose proof (days_before_month_nonneg y m).
rewrite days_before_year_succ.
destruct (decide (m = 12)) as [->|Hne].
- pose proof (days_before_month_last y). lia.
- pose proof (days_before_month_mono y m 12 ltac:(lia) ltac:(lia) ltac:(lia)).
  pose proof (days_before_month_last y). pose proof (days_in_month_pos y 12). lia.
Qed.

Lemma ymd2ord_lex y m d y' m' d' :
day_valid y m d -> day_valid y' m' d' ->
ymd_lt (y, m, d) (y', m', d') -> ymd2ord y m d < ymd2ord y' m' d'.
Proof.
intros Hv Hv' [Hy|[-> [Hm|[-> Hd]]]].
- pose proof (ymd2ord_year_bounds _ _ _ Hv).
  pose proof (ymd2ord_year_bounds _ _ _ Hv').
  pose proof (days_before_year_mono (y + 1) y' ltac:(lia)). lia.
- destruct Hv as [Hm1 Hd1], Hv' as [Hm2 Hd2]. unfold ymd2ord.
  pose proof (days_before_month_mono y' m m' ltac:(lia) Hm ltac:(lia)). lia.
- unfold ymd2ord. lia.
Qed.

Lemma ord2ymd_year_range n : 1 <= n <= max_ordinal ->
let '(y, m, d) := ord2ymd n in 1 <= y <= 9999.
Proof.
intros Hn. pose proof (ord2ymd_spec n) as H.
destruct (ord2ymd n) as [[y m] d]. destruct H as [Hv Ho].
pose proof (ymd2ord_year_bounds _ _ _ Hv) as Hb. rewrite Ho in Hb.
split.
- destruct (decide (1 <= y)); [assumption|].
  pose proof (days_before_year_mono (y + 1) 1 ltac:(lia)) as Hm.
  change (days_before_year 1) with 0 in Hm. lia.
- destruct (decide (y <= 9999)); [assumption|].
  pose proof (days_before_year_mono 10000 y ltac:(lia)) as Hm.
  change (days_before_year 10000) with 3652059 in Hm. unfold max_ordinal in Hn. lia.
Qed.

Lemma ymd2ord_range y m d : valid_ymd y m d = true -> 1 <= ymd2ord y m d <= max_ordinal.
Proof.
unfold valid_ymd. rewrite !andb_true_iff, !Z.leb_le.
intros (((((Hy1 & Hy2) & Hm1) & Hm2) & Hd1) & Hd2).
pose proof (ymd2ord_year_bounds y m d ltac:(split; lia)) as Hb.
pose proof (days_before_year_mono 1 y ltac:(lia)) as H1.
pose proof (days_before_year_mono (y + 1) 10000 ltac:(lia)) as H2.
change (days_before_year 1) with 0 in H1.
change (days_before_year 10000) with 3652059 in H2. unfold max_ordinal. lia.
Qed.

Lemma ord2ymd_ymd2ord y m d : day_valid y m d -> ord2ymd (ymd2ord y m d) = (y, m, d).
Proof.
intros Hv. pose proof (ord2ymd_spec (ymd2ord y m d)) as H.
destruct (ord2ymd (ymd2ord y m d)) as [[y' m'] d']. destruct H as [Hv' Ho].
destruct (Z.lt_trichotomy y y') as [Hy|[Hy|Hy]].
- pose proof (ymd2ord_lex y m d y' m' d' Hv Hv' ltac:(left; exact Hy)). lia.
- subst y'. destruct (Z.lt_trichotomy m m') as [Hm|[Hm|Hm]].
  + pose proof (ymd2ord_lex y m d y m' d' Hv Hv' ltac:(right; split; [reflexivity|left; exact Hm])). lia.
  + subst m'. unfold ymd2ord in Ho. f_equal. lia.
  + pose proof (ymd2ord_lex y m' d' y m d Hv' Hv ltac:(right; split; [reflexivity|left; exact Hm])). lia.
- pose proof (ymd2ord_lex y' m' d' y m d Hv' Hv ltac:(left; exact Hy)). lia.
Qed.

End CalendarFacts.

(** ** Dates as text: [strptime] reads back what [strftime] writes, and the
    texts of two dates compare as the dates do *)

Module TextFacts.
Import Calendar Text CalendarFacts.

Lemma Forall_seqZ_range (P : Z -> Prop) lo len :
  Forall P (seqZ lo len) -> forall x, lo <= x < lo + len -> P x.
Proof.
  intros H x Hx. rewrite Forall_forall in H. apply H, elem_of_seqZ. lia.
Qed.

Lemma forallb_seqZ_range (p : Z -> bool) lo len :
  forallb p (seqZ lo len) = true -> forall x, lo <= x < lo + len -> p x = true.
Proof.
  intros H x Hx. rewrite forallb_forall in H. apply H.
  apply list_elem_of_In, elem_of_seqZ. lia.
Qed.

Lemma digit_val_char a : 0 <= a <= 9 -> digit_val (digit_char a) = Some a.
Proof.
  intros Ha.
  apply (Forall_seqZ_range (fun a => digit_val (digit_char a) = Some a) 0 10); [|lia].
  repeat constructor.
Qed.

Lemma format_0d_2 n : 0 <= n <= 99 -> format_0d 2 n = digits2 n.
Proof.
  intros Hn.
  apply String.eqb_eq.
  apply (forallb_seqZ_range (fun n => String.eqb (format_0d 2 n) (digits2 n)) 0 100); [|lia].
  vm_compute. reflexivity.
Qed.

Lemma format_0d_4 n : 0 <= n <= 9999 -> format_0d 4 n = digits4 n.
Proof.
  intros Hn.
  apply String.eqb_eq.
  apply (forallb_seqZ_range (fun n => String.eqb (format_0d 4 n) (digits4 n)) 0 10000); [|lia].
  vm_compute. reflexivity.
Qed.



Lemma digits2_app n s :
  digits2 n +:+ s = String (digit_char (n / 10)) (String (digit_char (n mod 10)) s).
Proof. reflexivity. Qed.

Lemma string_app_assoc (a b c : string) : (a +:+ b) +:+ c = a +:+ (b +:+ c).
Proof.
  induction a as [|x a IH]; [reflexivity|].
  change (String x ((a +:+ b) +:+ c) = String x (a +:+ (b +:+ c))).
  rewrite IH. reflexivity.
Qed.



Lemma parse_Y_digits4 y rest : 0 <= y <= 9999 ->
  parse_Y (digits4 y +:+ rest) = Some (y, rest).
Proof.
  intros Hy. unfold digits4. rewrite string_app_assoc, !digits2_app.
  unfold parse_Y. rewrite !digit_val_char by (Z.div_mod_to_equations; lia).
  do 2 f_equal. Z.div_mod_to_equations. lia.
Qed.

Lemma parse_m_digits2 m rest : 1 <= m <= 12 ->
  parse_m (digits2 m +:+ rest) = Some (m, rest).
Proof.
  intros Hm. revert rest.
  apply (Forall_seqZ_range
           (fun m => forall rest, parse_m (digits2 m +:+ rest) = Some (m, rest)) 1 12);
    [|lia].
  repeat constructor.
Qed.

Lemma parse_d_digits2 d rest : 1 <= d <= 31 ->
  parse_d (digits2 d +:+ rest) = Some (d, rest).
Proof.
  intros Hd. revert rest.
  apply (Forall_seqZ_range
           (fun d => forall rest, parse_d (digits2 d +:+ rest) = Some (d, rest)) 1 31);
    [|lia].
  repeat constructor.
Qed.

Lemma strftime_Ymd_iso dt : 1 <= ordinal dt <= max_ordinal ->
  exists y m d, ord2ymd (ordinal dt) = (y, m, d) /\ valid_ymd y m d = true
                /\ strftime_Ymd dt = iso_text y m d.
Proof.
  intros Hr. unfold strftime_Ymd.
  pose proof (ord2ymd_spec (ordinal dt)) as Hs.
  pose proof (ord2ymd_year_range (ordinal dt) Hr) as Hy.
  destruct (ord2ymd (ordinal dt)) as [[y m] d]. destruct Hs as [[Hm Hd] Ho].
  pose proof (days_in_month_pos y m).
  exists y, m, d. split; [reflexivity|]. split.
  - unfold valid_ymd. rewrite !andb_true_iff, !Z.leb_le. lia.
  - unfold iso_text. rewrite format_0d_4, !format_0d_2 by lia. reflexivity.
Qed.

Lemma strptime_Ymd_iso y m d : valid_ymd y m d = true ->
  strptime_Ymd (iso_text y m d) = Ok (midnight (ymd2ord y m d)).
Proof.
  intros Hv. pose proof Hv as Hv'. unfold valid_ymd in Hv'.
  rewrite !andb_true_iff, !Z.leb_le in Hv'.
  destruct Hv' as (((((Hy1 & Hy2) & Hm1) & Hm2) & Hd1) & Hd2).
  pose proof (days_in_month_pos y m).
  unfold strptime_Ymd, iso_text.
  rewrite parse_Y_digits4 by lia. cbn [mbind option_bind].
  change (parse_dash ("-" +:+ ?s)) with (Some s). cbn [mbind option_bind].
  rewrite parse_m_digits2 by lia. cbn [mbind option_bind].
  change (parse_dash ("-" +:+ ?s)) with (Some s). cbn [mbind option_bind].
  replace (digits2 d) with (digits2 d +:+ EmptyString)
    by (rewrite digits2_app; reflexivity).
  rewrite parse_d_digits2 by lia. cbn [mbind option_bind build_datetime].
  rewrite Hv. reflexivity.
Qed.

Lemma strptime_strftime_Ymd dt : 1 <= ordinal dt <= max_ordinal ->
  strptime_Ymd (strftime_Ymd dt) = Ok (midnight (ordinal dt)).
Proof.
  intros Hr. destruct (strftime_Ymd_iso dt Hr) as (y & m & d & Ho & Hv & ->).
  rewrite strptime_Ymd_iso by exact Hv.
  pose proof (ord2ymd_spec (ordinal dt)) as Hs. rewrite Ho in Hs.
  destruct Hs as [_ ->]. reflexivity.
Qed.



End TextFacts.

(** ** Sets and schedules *)

Section ScheduleFacts.
Import Calendar Text CalendarFacts TextFacts.

Lemma in_calendar_true n : in_calendar n = true <-> 1 <= n <= max_ordinal.
Proof. unfold in_calendar. rewrite andb_true_iff, !Z.leb_le. reflexivity. Qed.

Lemma add_days_Ok dt k dt' :
  add_days dt k = Ok dt' <-> 1 <= ordinal dt + k <= max_ordinal /\ dt' = plus_days dt k.
Proof.
  unfold add_days. destruct (in_calendar (ordinal dt + k)) eqn:E.
  - apply in_calendar_true in E. split; [intros [= <-]; auto|intros [_ ->]; reflexivity].
  - split; [discriminate|]. intros [H _]. apply in_calendar_true in H. congruence.
Qed.

Lemma add_days_in_range dt k :
  1 <= ordinal dt + k <= max_ordinal -> add_days dt k = Ok (plus_days dt k).
Proof. intros H. apply add_days_Ok. auto. Qed.

(** *** [Set.get_review_events] *)

Lemma get_review_events_in_range s :
  0 <= ordinal (G5Set.learn_date s) -> ordinal (G5Set.learn_date s) + 14 <= max_ordinal ->
  G5Set.get_review_events s = Ok (set_reviews s).
Proof.
  intros H0 H14. unfold G5Set.get_review_events.
  change (enumerate (G5Set.review_days s))
    with [(0%nat, 2); (1%nat, 4); (2%nat, 8); (3%nat, 15)].
  cbn [result_mapM]. unfold mbind, result_mbind. cbv beta iota.
  rewrite !add_days_in_range by lia. reflexivity.
Qed.

Lemma get_review_events_Ok s rs :
  G5Set.get_review_events s = Ok rs ->
  rs = set_reviews s
  /\ 0 <= ordinal (G5Set.learn_date s) /\ ordinal (G5Set.learn_date s) + 14 <= max_ordinal.
Proof.
  intros H.
  assert (Hr : 0 <= ordinal (G5Set.learn_date s)
               /\ ordinal (G5Set.learn_date s) + 14 <= max_ordinal).
  { unfold G5Set.get_review_events in H.
    change (enumerate (G5Set.review_days s))
      with [(0%nat, 2); (1%nat, 4); (2%nat, 8); (3%nat, 15)] in H.
    cbn [result_mapM] in H. unfold mbind, result_mbind in H. cbv beta iota in H.
    destruct (add_days (G5Set.learn_date s) (2 - 1)) eqn:E1; [|discriminate].
    destruct (add_days (G5Set.learn_date s) (4 - 1)) eqn:E2; [|discriminate].
    destruct (add_days (G5Set.learn_date s) (8 - 1)) eqn:E3; [|discriminate].
    destruct (add_days (G5Set.learn_date s) (15 - 1)) eqn:E4; [|discriminate].
    apply add_days_Ok in E1 as [? _]. apply add_days_Ok in E4 as [? _]. lia. }
  destruct Hr as [H0 H14]. rewrite get_review_events_in_range in H by assumption.
  injection H as <-. auto.
Qed.


Lemma get_all_events_in_range s :
  0 <= ordinal (G5Set.learn_date s) -> ordinal (G5Set.learn_date s) + 14 <= max_ordinal ->
  G5Set.get_all_events s = Ok (set_events s).
Proof.
  intros H0 H14. unfold G5Set.get_all_events, mbind, result_mbind.
  rewrite get_review_events_in_range by assumption. reflexivity.
Qed.

(** *** [G5Schedule.add_new_sets] *)

Lemma add_new_sets_loop_in_range (idx : list Z) start k acc :
  (forall i, i ∈ idx -> 1 <= ordinal start + i <= max_ordinal) ->
  G5Schedule.add_new_sets_loop
    {| G5Schedule.start_date := start; G5Schedule.sets := acc |} k idx
  = (Ok tt, {| G5Schedule.start_date := start;
               G5Schedule.sets := acc ++ map (new_set start k) idx |}).
Proof.
  revert acc. induction idx as [|i idx IH]; intros acc Hr; cbn [G5Schedule.add_new_sets_loop map].
  - rewrite app_nil_r. reflexivity.
  - cbn [G5Schedule.start_date G5Schedule.sets].
    rewrite add_days_in_range by (apply Hr; left).
    rewrite IH by (intros j Hj; apply Hr; right; exact Hj).
    rewrite <- app_assoc. reflexivity.
Qed.

Lemma format_0d_nonneg w x : 0 <= x ->
  format_0d w x = zeros (w - String.length (str_int x)) +:+ str_int x.
Proof.
  intros Hx. unfold format_0d.
  replace (x <? 0) with false by (symmetry; apply Z.ltb_ge; lia).
  rewrite Z.abs_eq by lia. cbn [String.length]. rewrite Nat.sub_0_r. reflexivity.
Qed.

(** *** [G5Schedule.get_activity_list] *)

Lemma activity_step_Ok acc s l :
  activity_step acc s = Ok l -> l = acc ++ set_activities s.
Proof.
  unfold activity_step, mbind, result_mbind. cbv zeta. intros H.
  destruct (G5Set.get_review_events s) as [rs|e] eqn:E; [|discriminate].
  apply get_review_events_Ok in E as (-> & _). cbn [result_bind] in H.
  injection H as <-. unfold set_reviews. cbn [foldl].
  rewrite <- !app_assoc. reflexivity.
Qed.

Lemma activity_step_in_range acc s :
  0 <= ordinal (G5Set.learn_date s) -> ordinal (G5Set.learn_date s) + 14 <= max_ordinal ->
  activity_step acc s = Ok (acc ++ set_activities s).
Proof.
  intros H0 H14. unfold activity_step, mbind, result_mbind. cbv zeta.
  rewrite get_review_events_in_range by assumption. cbn [result_bind].
  unfold set_reviews. cbn [foldl]. rewrite <- !app_assoc. reflexivity.
Qed.

Lemma activity_fold_Ok ss acc l :
  result_foldl activity_step acc ss = Ok l -> l = acc ++ concat (map set_activities ss).
Proof.
  revert acc. induction ss as [|s ss IH]; intros acc H; cbn [result_foldl map concat] in *.
  - injection H as <-. rewrite app_nil_r. reflexivity.
  - destruct (activity_step acc s) as [acc'|e] eqn:E; [|discriminate].
    apply activity_step_Ok in E as ->. cbn [result_bind] in H.
    apply IH in H as ->. rewrite <- app_assoc. reflexivity.
Qed.

Lemma activity_fold_in_range ss acc : in_range ss ->
  result_foldl activity_step acc ss = Ok (acc ++ concat (map set_activities ss)).
Proof.
  revert acc. induction ss as [|s ss IH]; intros acc Hr; cbn [result_foldl map concat].
  - rewrite app_nil_r. reflexivity.
  - destruct (Hr s ltac:(left)) as [H1 H14].
    rewrite activity_step_in_range by lia. cbn [result_bind].
    rewrite IH by (intros s' Hs'; apply Hr; right; exact Hs').
    rewrite <- app_assoc. reflexivity.
Qed.

Lemma get_activity_list_Ok self l :
  G5Schedule.get_activity_list self = Ok l ->
  l = concat (map set_activities (G5Schedule.sets self)).
Proof. intros H. apply (activity_fold_Ok _ [] l H). Qed.

Lemma get_activity_list_in_range self : in_range (G5Schedule.sets self) ->
  G5Schedule.get_activity_list self
  = Ok (concat (map set_activities (G5Schedule.sets self))).
Proof. intros H. apply (activity_fold_in_range _ [] H). Qed.

(** *** [G5Schedule.get_events_by_date] *)


Lemma events_fold_in_range ss m0 : in_range ss ->
  result_foldl events_step m0 ss = Ok (foldl G5Schedule.record_event m0 (all_events ss)).
Proof.
  revert m0. induction ss as [|s ss IH]; intros m0 Hr; cbn [result_foldl]; [reflexivity|].
  destruct (Hr s ltac:(left)) as [H1 H14].
  unfold events_step at 1, mbind, result_mbind.
  rewrite get_all_events_in_range by lia. cbn [result_bind].
  rewrite IH by (intros s' Hs'; apply Hr; right; exact Hs').
  unfold all_events. cbn [map concat]. rewrite foldl_app. reflexivity.
Qed.


Lemma get_events_by_date_in_range self : in_range (G5Schedule.sets self) ->
  G5Schedule.get_events_by_date self = Ok (events_map (G5Schedule.sets self)).
Proof. intros H. apply (events_fold_in_range _ ∅ H). Qed.

(** *** The dictionary of events, day by day *)

Lemma lookup_record_event (m : gmap string day_entry) ev k :
  G5Schedule.record_event m ev !! k
  = if decide (on_date k ev) then Some (apply_event (default empty_entry (m !! k)) ev)
    else m !! k.
Proof.
  unfold G5Schedule.record_event, on_date.
  set (ds := strftime_Ymd (event_date ev)).
  destruct (decide (ds = k)) as [<-|Hne].
  - destruct (m !! ds) as [e|] eqn:Hm; destruct ev; cbn [apply_event default];
      rewrite lookup_alter_eq, ?lookup_insert_eq, ?Hm; reflexivity.
  - destruct (m !! ds) as [e|] eqn:Hm; destruct ev;
      rewrite lookup_alter_ne, ?lookup_insert_ne by exact Hne; reflexivity.
Qed.

Lemma lookup_foldl_record_event evs (m : gmap string day_entry) k :
  foldl G5Schedule.record_event m evs !! k
  = match filter (on_date k) evs with
    | [] => m !! k
    | ek => Some (foldl apply_event (default empty_entry (m !! k)) ek)
    end.
Proof.
  revert m. induction evs as [|ev evs IH]; intros m; cbn [foldl].
  - reflexivity.
  - rewrite IH, lookup_record_event, filter_cons.
    destruct (decide (on_date k ev)) as [Hk|Hk].
    + cbn [default foldl]. destruct (filter (on_date k) evs); reflexivity.
    + reflexivity.
Qed.

Lemma New_Words_foldl evs entry :
  New_Words (foldl apply_event entry evs)
  = match last (omap learn_name evs) with
    | Some n => Some n
    | None => New_Words entry
    end.
Proof.
  revert entry. induction evs as [|ev evs IH]; intros entry; [reflexivity|].
  cbn [foldl]. rewrite IH. destruct ev as [e|e]; cbn.
  - rewrite last_cons. destruct (last (omap learn_name evs)); reflexivity.
  - reflexivity.
Qed.

Lemma Reviews_foldl evs entry :
  Reviews (foldl apply_event entry evs)
  = Reviews entry ++ map G5Schedule.review_text (omap review_of evs).
Proof.
  revert entry. induction evs as [|ev evs IH]; intros entry; cbn [foldl].
  - cbn. rewrite app_nil_r. reflexivity.
  - rewrite IH. destruct ev as [e|e]; cbn.
    + reflexivity.
    + rewrite <- app_assoc. reflexivity.
Qed.

Lemma filter_map_Review (k : string) (rs : list review_event) :
  filter (on_date k) (map Review rs)
  = map Review (filter (fun r => strftime_Ymd (re_date r) = k) rs).
Proof.
  induction rs as [|r rs IH]; [reflexivity|].
  cbn [map]. rewrite !filter_cons. unfold on_date at 1. cbn [event_date].
  destruct (decide (strftime_Ymd (re_date r) = k)); cbn [map]; rewrite IH; reflexivity.
Qed.

Lemma omap_learn_name_Review rs : omap learn_name (map Review rs) = [].
Proof. induction rs; [reflexivity|exact IHrs]. Qed.

Lemma omap_review_of_Review rs : omap review_of (map Review rs) = rs.
Proof. induction rs as [|r rs IH]; [reflexivity|]. cbn. rewrite IH. reflexivity. Qed.

Lemma filter_get_all_events k s :
  filter (on_date k) (set_events s)
  = (if decide (strftime_Ymd (G5Set.learn_date s) = k)
     then [Learn (G5Set.get_learning_event s)] else [])
    ++ map Review (filter (fun r => strftime_Ymd (re_date r) = k)
                          (set_reviews s)).
Proof.
  unfold set_events. rewrite filter_cons, filter_map_Review.
  unfold on_date at 1. cbn [event_date G5Set.get_learning_event le_date].
  destruct (decide (strftime_Ymd (G5Set.learn_date s) = k)); reflexivity.
Qed.

Lemma learn_names_on k ss :
  omap learn_name (filter (on_date k) (all_events ss))
  = map G5Set.name (filter (fun s => strftime_Ymd (G5Set.learn_date s) = k) ss).
Proof.
  induction ss as [|s ss IH]; [reflexivity|].
  unfold all_events in *. cbn [map concat]. rewrite filter_app, omap_app, IH.
  rewrite filter_get_all_events, omap_app, omap_learn_name_Review, app_nil_r.
  rewrite (filter_cons _ s).
  destruct (decide (strftime_Ymd (G5Set.learn_date s) = k)); reflexivity.
Qed.

Lemma reviews_of_on k ss :
  omap review_of (filter (on_date k) (all_events ss))
  = filter (fun r => strftime_Ymd (re_date r) = k)
           (concat (map set_reviews ss)).
Proof.
  induction ss as [|s ss IH]; [reflexivity|].
  unfold all_events in *. cbn [map concat]. rewrite !filter_app, omap_app, IH.
  rewrite filter_get_all_events, omap_app, omap_review_of_Review.
  destruct (decide (strftime_Ymd (G5Set.learn_date s) = k)); reflexivity.
Qed.

Lemma lookup_events_map ss k :
  events_map ss !! k
  = match filter (on_date k) (all_events ss) with
    | [] => None
    | _ :: _ => Some {| New_Words := new_words_on k ss; Reviews := reviews_on k ss |}
    end.
Proof.
  unfold events_map. rewrite lookup_foldl_record_event, lookup_empty.
  destruct (filter (on_date k) (all_events ss)) as [|ev ek] eqn:E; [reflexivity|].
  f_equal. rewrite <- E.
  set (e := foldl apply_event _ _).
  assert (Hn : New_Words e = new_words_on k ss).
  { unfold e. rewrite New_Words_foldl, learn_names_on. unfold new_words_on.
    destruct (last _); reflexivity. }
  assert (Hr : Reviews e = reviews_on k ss).
  { unfold e. rewrite Reviews_foldl, reviews_of_on. reflexivity. }
  destruct e as [nw rv]. cbn in Hn, Hr. subst. reflexivity.
Qed.


Lemma lookup_events_map_Some ss k entry :
  events_map ss !! k = Some entry <->
  (exists ev, ev ∈ all_events ss /\ strftime_Ymd (event_date ev) = k)
  /\ entry = {| New_Words := new_words_on k ss; Reviews := reviews_on k ss |}.
Proof.
  rewrite lookup_events_map.
  destruct (filter (on_date k) (all_events ss)) as [|ev ek] eqn:E.
  - split; [discriminate|]. intros [(ev & Hev & Hk) _]. exfalso.
    assert (Hin : ev ∈ filter (on_date k) (all_events ss))
      by (apply list_elem_of_filter; split; assumption).
    rewrite E in Hin. inversion Hin.
  - assert (Hin : ev ∈ filter (on_date k) (all_events ss)) by (rewrite E; left).
    apply list_elem_of_filter in Hin as [Hk Hin]. split.
    + intros [= <-]. split; [eauto|reflexivity].
    + intros [_ ->]. reflexivity.
Qed.

(** *** The table *)

Global Instance item_le_trans {V} : Transitive (@item_le V).
Proof. intros x y z. unfold item_le. apply transitivity. Qed.

Global Instance item_le_total {V} : Total (@item_le V).
Proof. intros x y. unfold item_le. apply total, _. Qed.

Lemma elem_of_all_events ev ss :
  ev ∈ all_events ss <-> exists s, s ∈ ss /\ ev ∈ set_events s.
Proof.
  unfold all_events. induction ss as [|s ss IH]; cbn [map concat].
  - split; [intros H; inversion H|intros (s & Hs & _); inversion Hs].
  - rewrite elem_of_app, IH. split.
    + intros [H|(s' & Hs' & H)]; [exists s; split; [left|exact H]|].
      exists s'. split; [right; exact Hs'|exact H].
    + intros (s' & Hs' & H). apply elem_of_cons in Hs' as [->|Hs'];
        [left; exact H|right; eauto].
Qed.



Lemma key_day_strftime dt : 1 <= ordinal dt <= max_ordinal ->
  key_day (strftime_Ymd dt) = ordinal dt.
Proof. intros H. unfold key_day. rewrite strptime_strftime_Ymd by exact H. reflexivity. Qed.



Lemma result_mapM_Ok {A B} (f : A -> result B) (g : A -> B) (l : list A) :
  (forall x, x ∈ l -> f x = Ok (g x)) -> result_mapM f l = Ok (map g l).
Proof.
  induction l as [|x l IH]; intros H; [reflexivity|].
  cbn [result_mapM map]. rewrite (H x) by left. cbn [result_bind].
  rewrite IH by (intros y Hy; apply H; right; exact Hy). reflexivity.
Qed.






End ScheduleFacts.
(** ** The calendar exporter *)

Section ExportFacts.
Import Calendar Text CalendarFacts TextFacts.

Lemma with_uuid4_calls_same w : with_uuid4_calls (uuid4_calls w) w = w.
Proof. destruct w; reflexivity. Qed.

Lemma with_uuid4_calls_twice n k w :
  with_uuid4_calls n (with_uuid4_calls k w) = with_uuid4_calls n w.
Proof. reflexivity. Qed.

(** Building an event touches nothing in the world but the count of
    identifiers drawn. *)
Lemma event_of_activity_world a w r w' :
  ICalExport.event_of_activity a w = (r, w') ->
  w' = with_uuid4_calls (uuid4_calls w') w.
Proof.
  unfold ICalExport.event_of_activity, io_bind, io_lift, io_ret, uuid4.
  destruct (strptime_Ymd (Date a)) as [d|e].
  - destruct (date_add_days (ordinal d) 1) as [d'|e].
    + intros [= <- <-]. reflexivity.
    + intros [= <- <-]. symmetry. apply with_uuid4_calls_same.
  - intros [= <- <-]. symmetry. apply with_uuid4_calls_same.
Qed.

Lemma add_events_world schedule cal w r w' :
  ICalExport.add_events schedule cal w = (r, w') ->
  w' = with_uuid4_calls (uuid4_calls w') w.
Proof.
  revert cal w. induction schedule as [|a rest IH]; intros cal w; cbn [ICalExport.add_events].
  - unfold io_ret. intros [= <- <-]. symmetry. apply with_uuid4_calls_same.
  - unfold io_bind at 1.
    destruct (ICalExport.event_of_activity a w) as [[ev|e] w1] eqn:E.
    + intros H. apply IH in H. apply event_of_activity_world in E.
      rewrite H, E. reflexivity.
    + intros [= <- <-]. apply event_of_activity_world in E. exact E.
Qed.

Lemma date_add_days_in_range d k :
  1 <= d + k <= max_ordinal -> date_add_days d k = Ok (d + k).
Proof.
  intros H. unfold date_add_days.
  destruct (in_calendar (d + k)) eqn:E; [reflexivity|].
  apply in_calendar_true in H. congruence.
Qed.

Lemma build_datetime_Ok fields d :
  build_datetime fields = Ok d -> 1 <= ordinal d <= max_ordinal.
Proof.
  unfold build_datetime.
  destruct fields as [[[[y m] dd] [|c rest]]|]; try discriminate.
  destruct (valid_ymd y m dd) eqn:Hv; [|discriminate].
  intros [= <-]. cbn [ordinal midnight]. apply ymd2ord_range. exact Hv.
Qed.

Lemma strptime_Ymd_Ok s d : strptime_Ymd s = Ok d -> 1 <= ordinal d <= max_ordinal.
Proof. apply build_datetime_Ok. Qed.

Lemma event_of_activity_exportable a w : exportable a ->
  ICalExport.event_of_activity a w
  = (Ok (expected_event a (uuid4_source w (uuid4_calls w))),
     with_uuid4_calls (S (uuid4_calls w)) w).
Proof.
  intros (d & Hd & Hmax). pose proof (strptime_Ymd_Ok _ _ Hd) as Hr.
  unfold ICalExport.event_of_activity, io_bind, io_lift, io_ret, uuid4, expected_event, key_day.
  rewrite Hd. rewrite date_add_days_in_range by lia. reflexivity.
Qed.

Lemma add_events_exportable schedule cal w : Forall exportable schedule ->
  ICalExport.add_events schedule cal w
  = (Ok {| cal_properties := cal_properties cal;
           cal_components :=
             cal_components cal
             ++ imap (fun i a => expected_event a (uuid4_source w (uuid4_calls w + i)%nat))
                     schedule |},
     with_uuid4_calls (uuid4_calls w + length schedule)%nat w).
Proof.
  intros Hall. revert cal w.
  induction Hall as [|a rest Ha Hrest IH]; intros cal w; cbn [ICalExport.add_events].
  - unfold io_ret. cbn [imap length]. rewrite app_nil_r, Nat.add_0_r, with_uuid4_calls_same.
    destruct cal; reflexivity.
  - unfold io_bind at 1. rewrite event_of_activity_exportable by exact Ha.
    rewrite IH. cbn [cal_properties cal_components uuid4_calls with_uuid4_calls uuid4_source].
    rewrite with_uuid4_calls_twice. cbn [imap length].
    rewrite <- app_assoc. cbn [app]. rewrite Nat.add_0_r.
    assert (Himap :
      imap (fun i x => expected_event x (uuid4_source w (S (uuid4_calls w) + i)%nat)) rest
      = imap ((fun i x => expected_event x (uuid4_source w (uuid4_calls w + i)%nat)) ∘ S) rest).
    { apply imap_ext. intros i x _. cbn. do 2 f_equal. lia. }
    rewrite Himap. do 2 f_equal. lia.
Qed.




Lemma list_neq_cons {A} (x : A) (l : list A) : l <> x :: l.
Proof.
  intros H. apply (f_equal (@length A)) in H. cbn in H. lia.
Qed.

End ExportFacts.

(** ** Sample runs of the model *)

Section Samples.
Import Text.

Example sample_set_numbers :
  map (format_0d 2) [1; 9; 10; 99; 100; 0; -5] = ["01"; "09"; "10"; "99"; "100"; "00"; "-5"].
Proof. reflexivity. Qed.

Example sample_strftime :
  strftime_Ymd april_7 = "2025-04-07" /\ strftime_bd april_7 = "Apr 07"
  /\ strftime_Ymd last_day = "9999-12-31" /\ strftime_Ymd (midnight 1) = "0001-01-01".
Proof. repeat split. Qed.

Example sample_strptime :
  strptime_dmY "07-04-2025" = Ok april_7
  /\ strptime_dmY "7-4-2025" = Ok april_7
  /\ strptime_Ymd "2025-04-07" = Ok april_7
  /\ strptime_Ymd "2025-02-29" = Raise (ValueError "day is out of range for month")
  /\ strptime_dmY "2025-04-07" = Raise (ValueError "time data does not match format").
Proof. repeat split. Qed.

(** One set, numbered 1, from 7 April 2025. *)
Example sample_generate :
  (Cli.generate_g5_schedule "07-04-2025" 1 1 "g5_schedule.json" false quiet_world).1
  = Ok (Cli.Frame
          [ {| row_Date := "Apr 07 (D1)"; row_New_Words := "Set 01"; row_Reviews := "-" |};
            {| row_Date := "Apr 08 (D2)"; row_New_Words := "-"; row_Reviews := "Set 01 (R1)" |};
            {| row_Date := "Apr 10 (D4)"; row_New_Words := "-"; row_Reviews := "Set 01 (R2)" |};
            {| row_Date := "Apr 14 (D8)"; row_New_Words := "-"; row_Reviews := "Set 01 (R3)" |};
            {| row_Date := "Apr 21 (D15)"; row_New_Words := "-"; row_Reviews := "Set 01 (R4)" |} ]).
Proof. vm_compute. reflexivity. Qed.

End Samples.

(** * The properties *)

Section Properties.
Import Calendar Text CalendarFacts TextFacts.

(** Bounds on the sample dates. *)
Ltac sample_dates :=
  unfold valid_datetime, last_day, april_7, midnight, max_ordinal, usec_per_day;
  cbn [ordinal micro_of_day G5Schedule.start_date G5Schedule.init G5Set.learn_date G5Set.init];
  lia.

(** ** [Set.get_review_events] *)

(** C1, as stated, fails on the last day of the calendar: the set learned on
    9999-12-31 is a set like any other, and asking for its review events
    raises [OverflowError] instead of returning four events. *)
Lemma review_events_overflow_on_last_day :
  valid_datetime last_day
  /\ G5Set.get_review_events (G5Set.init "Set 01" last_day)
     = Raise (OverflowError "date value out of range").
Proof. split; [sample_dates|reflexivity]. Qed.

(** C1, amended.  For every set constructed from a name and a learn date
    whose fourteenth day after still exists (learn date at most 9999-12-17),
    [get_review_events] returns exactly four events, dated learn date + 1,
    + 3, + 7 and + 14 days (the offsets 2, 4, 8, 15 minus 1), numbered 1 to 4
    in that order, with strictly increasing dates. *)
Theorem review_events_of_new_set (name : string) (learn_date : datetime) :
  valid_datetime learn_date ->
  ordinal learn_date + 14 <= max_ordinal ->
  exists reviews,
    G5Set.get_review_events (G5Set.init name learn_date) = Ok reviews
    /\ reviews
       = [ {| re_date := plus_days learn_date 1; re_set_name := name; re_review_number := 1 |};
           {| re_date := plus_days learn_date 3; re_set_name := name; re_review_number := 2 |};
           {| re_date := plus_days learn_date 7; re_set_name := name; re_review_number := 3 |};
           {| re_date := plus_days learn_date 14; re_set_name := name; re_review_number := 4 |} ]
    /\ length reviews = 4%nat
    /\ map (fun r => ordinal (re_date r)) reviews
       = [ordinal learn_date + 1; ordinal learn_date + 3;
          ordinal learn_date + 7; ordinal learn_date + 14]
    /\ StronglySorted datetime_lt (map re_date reviews).
Proof.
  intros [[H1 _] _] H14. eexists. split.
  - apply get_review_events_in_range; cbn; lia.
  - split; [reflexivity|]. split; [reflexivity|]. split; [reflexivity|].
    cbn. unfold datetime_lt.
    repeat (apply SSorted_cons; [|repeat constructor; cbn; lia]).
    constructor.
Qed.

Lemma review_events_of_new_set_witness :
  valid_datetime april_7 /\ ordinal april_7 + 14 <= max_ordinal
  /\ exists reviews,
       G5Set.get_review_events (G5Set.init "Set 01" april_7) = Ok reviews
       /\ length reviews = 4%nat.
Proof.
  assert (Hv : valid_datetime april_7) by sample_dates.
  assert (Hr : ordinal april_7 + 14 <= max_ordinal) by sample_dates.
  split; [exact Hv|]. split; [exact Hr|].
  destruct (review_events_of_new_set "Set 01" april_7 Hv Hr) as (rs & H & _ & Hl & _).
  exists rs. split; assumption.
Defined.

(** ** [G5Schedule.add_new_sets] *)

(** C2, as stated, fails when the consecutive days run past the end of the
    calendar: from 9999-12-31, asking for two sets appends one and then
    raises [OverflowError]. *)
Lemma add_new_sets_overflow_on_last_day :
  valid_datetime last_day
  /\ G5Schedule.add_new_sets (G5Schedule.init last_day) 2 1
     = (Raise (OverflowError "date value out of range"),
        {| G5Schedule.start_date := last_day;
           G5Schedule.sets := [G5Set.init "Set 01" last_day] |}).
Proof. split; [sample_dates|reflexivity]. Qed.

(** C2, amended.  For every schedule with start date [d], every [n >= 1]
    and [k >= 1] such that day [d + (n - 1)] still exists,
    [add_new_sets(n, k)] raises nothing and appends exactly [n] sets to the
    set list; the [i]-th appended set ([i] from 0 to [n - 1]) has learn date
    [d + i] days and the name "Set " followed by [k + i] padded with zeros
    to width 2; the sets already in the list and the start date are
    unchanged. *)
Theorem add_new_sets_appends (self : G5Schedule.t) (n k : Z) :
  valid_datetime (G5Schedule.start_date self) ->
  ordinal (G5Schedule.start_date self) + (n - 1) <= max_ordinal ->
  1 <= n -> 1 <= k ->
  exists (self' : G5Schedule.t) (new : list G5Set.t),
    G5Schedule.add_new_sets self n k = (Ok tt, self')
    /\ G5Schedule.sets self' = G5Schedule.sets self ++ new
    /\ G5Schedule.start_date self' = G5Schedule.start_date self
    /\ Z.of_nat (length new) = n
    /\ forall i, 0 <= i < n ->
         new !! Z.to_nat i
         = Some (G5Set.init
                   ("Set " +:+ zeros (2 - String.length (str_int (k + i))) +:+ str_int (k + i))
                   (plus_days (G5Schedule.start_date self) i)).
Proof.
  intros [[H1 _] _] Hmax Hn Hk. destruct self as [start acc].
  cbn [G5Schedule.start_date G5Schedule.sets] in *.
  unfold G5Schedule.add_new_sets, G5Schedule.range.
  rewrite add_new_sets_loop_in_range
    by (intros i Hi; apply elem_of_seqZ in Hi; lia).
  eexists _, _. split; [reflexivity|]. cbn [G5Schedule.sets G5Schedule.start_date].
  split; [reflexivity|]. split; [reflexivity|]. split.
  - rewrite length_map, length_seqZ. lia.
  - intros i Hi. change (map ?f ?l) with (f <$> l). rewrite list_lookup_fmap.
    rewrite (lookup_seqZ_lt 0 n (Z.to_nat i)) by lia. cbn [fmap option_fmap option_map].
    rewrite Z2Nat.id by lia. rewrite Z.add_0_l. unfold new_set.
    rewrite format_0d_nonneg by lia. reflexivity.
Qed.

Lemma add_new_sets_appends_witness :
  valid_datetime (G5Schedule.start_date (G5Schedule.init april_7))
  /\ ordinal (G5Schedule.start_date (G5Schedule.init april_7)) + (2 - 1) <= max_ordinal
  /\ 1 <= 2 /\ 1 <= 9
  /\ exists self' new,
       G5Schedule.add_new_sets (G5Schedule.init april_7) 2 9 = (Ok tt, self')
       /\ G5Schedule.sets self' = [] ++ new
       /\ new !! 1%nat = Some (G5Set.init "Set 10" (plus_days april_7 1)).
Proof.
  assert (Hv : valid_datetime (G5Schedule.start_date (G5Schedule.init april_7)))
    by sample_dates.
  assert (Hr : ordinal (G5Schedule.start_date (G5Schedule.init april_7)) + (2 - 1)
               <= max_ordinal) by sample_dates.
  assert (Hn : 1 <= 2) by lia.
  assert (Hk : 1 <= 9) by lia.
  split; [exact Hv|]. split; [exact Hr|]. split; [exact Hn|]. split; [exact Hk|].
  destruct (add_new_sets_appends (G5Schedule.init april_7) 2 9 Hv Hr Hn Hk)
    as (self' & new & Hadd & Hsets & _ & _ & Hi).
  exists self', new. split; [exact Hadd|]. split; [exact Hsets|].
  exact (Hi 1 ltac:(lia)).
Defined.

(** C10.  For every schedule and every count at most 0,
    [add_new_sets(count, k)] raises nothing and leaves the schedule as it
    was, set list and start date; it is [generate_g5_schedule], the layer
    above, that refuses such a count. *)
Theorem add_new_sets_nonpositive (self : G5Schedule.t) (count k : Z) :
  count <= 0 ->
  G5Schedule.add_new_sets self count k = (Ok tt, self)
  /\ forall w start_date_str given_date json_path return_schedule,
       strptime_dmY start_date_str = Ok given_date ->
       (Cli.generate_g5_schedule start_date_str count k json_path return_schedule w).1
       = Raise (ValueError "Number of new sets must be positive").
Proof.
  intros Hc. split.
  - unfold G5Schedule.add_new_sets, G5Schedule.range.
    replace (seqZ 0 count) with (@nil Z); [reflexivity|].
    symmetry. apply length_zero_iff_nil. rewrite length_seqZ. lia.
  - intros w s d path flag Hd.
    unfold Cli.generate_g5_schedule, Cli.generate_body, io_bind, io_lift.
    rewrite Hd. replace (count <=? 0) with true by (symmetry; apply Z.leb_le; exact Hc).
    reflexivity.
Qed.

Lemma add_new_sets_nonpositive_witness :
  -3 <= 0
  /\ G5Schedule.add_new_sets two_day_schedule (-3) 1 = (Ok tt, two_day_schedule).
Proof.
  assert (H : -3 <= 0) by lia.
  split; [exact H|].
  exact (proj1 (add_new_sets_nonpositive two_day_schedule (-3) 1 H)).
Defined.

(** ** [Set.to_dict] and [Set.from_dict] *)




(** ** [G5Schedule.get_events_by_date] *)



(** ** [G5Schedule.get_activity_list] *)

(** C6.  For every schedule, the flat activity list is ordered by set, in
    set-list order, and within each set has the learning activity first and
    then the reviews R1 to R4; the same list is the "full_schedule" field
    of [to_dict] and what [export_to_ical] hands to the calendar exporter.
    The list exists when every set has its learning day and its fourteenth
    day after inside the calendar.  It is not sorted by date: the schedule
    of two sets learned on consecutive days is out of date order. *)
Theorem activity_list_order :
  (forall self : G5Schedule.t,
      (in_range (G5Schedule.sets self) ->
       exists l, G5Schedule.get_activity_list self = Ok l)
      /\ forall l, G5Schedule.get_activity_list self = Ok l ->
           l = concat (map set_activities (G5Schedule.sets self))
           /\ (forall d, G5Schedule.to_dict self = Ok d -> d_full_schedule d = l)
           /\ (forall path, G5Schedule.export_to_ical self path
                            = ICalExport.export_to_ical l path))
  /\ exists l, G5Schedule.get_activity_list two_day_schedule = Ok l
               /\ ~ sorted_by_date l.
Proof.
  split.
  - intros self. split.
    + intros Hr. eexists. apply get_activity_list_in_range. exact Hr.
    + intros l Hl. split; [apply get_activity_list_Ok; exact Hl|]. split.
      * intros d Hd. unfold G5Schedule.to_dict, mbind, result_mbind in Hd.
        destruct (result_mapM G5Set.to_dict (G5Schedule.sets self)); [|discriminate].
        cbn [result_bind] in Hd. rewrite Hl in Hd. cbn [result_bind] in Hd.
        injection Hd as <-. reflexivity.
      * intros path. unfold G5Schedule.export_to_ical. rewrite Hl. reflexivity.
  - eexists. split; [vm_compute; reflexivity|].
    unfold sorted_by_date.
    apply (bool_decide_eq_false_1 (Sorted _ _)). vm_compute. reflexivity.
Qed.

(** ** [G5Schedule.to_dataframe] *)




(** ** [generate_g5_schedule] *)

(** C7.  For every call of [generate_g5_schedule] with [new_sets <= 0] or
    [set_number < 1], the call raises before any file is written: the file
    system is as it was and no write was completed.  When the start date
    parses, the exception is the validation error (the count is checked
    first); when it does not, it is the parsing error.  Either way the
    handler prints the message and raises again. *)
Theorem generate_rejects_before_writing
    (w : world) (start_date_str : string) (new_sets set_number : Z)
    (json_path : string) (return_schedule : bool) :
  new_sets <= 0 \/ set_number < 1 ->
  exists e w',
    Cli.generate_g5_schedule start_date_str new_sets set_number json_path
                             return_schedule w = (Raise e, w')
    /\ files w' = files w
    /\ written w' = written w
    /\ stdout w' = ("Error generating schedule: " +:+ exn_message e) :: stdout w
    /\ match strptime_dmY start_date_str with
       | Ok _ =>
           e = ValueError (if new_sets <=? 0
                           then "Number of new sets must be positive"
                           else "Set number must be positive")
       | Raise parse_error => e = parse_error
       end.
Proof.
  intros Hbad.
  unfold Cli.generate_g5_schedule, Cli.generate_body, io_bind, io_lift.
  destruct (strptime_dmY start_date_str) as [given_date|parse_error].
  - destruct (new_sets <=? 0) eqn:Hn.
    + eexists _, _. split; [reflexivity|]. repeat split.
    + assert (Hs : (set_number <? 1) = true).
      { apply Z.ltb_lt. apply Z.leb_gt in Hn. lia. }
      rewrite Hs. eexists _, _. split; [reflexivity|]. repeat split.
  - eexists _, _. split; [reflexivity|]. repeat split.
Qed.

Lemma generate_rejects_before_writing_witness :
  (0 <= 0 \/ 1 < 1)
  /\ exists e w',
       Cli.generate_g5_schedule "07-04-2025" 0 1 "g5_schedule.json" true quiet_world
       = (Raise e, w')
       /\ files w' = files quiet_world
       /\ e = ValueError "Number of new sets must be positive".
Proof.
  assert (H : 0 <= 0 \/ 1 < 1) by (left; lia).
  split; [exact H|].
  destruct (generate_rejects_before_writing quiet_world "07-04-2025" 0 1
              "g5_schedule.json" true H) as (e & w' & Hrun & Hfiles & _ & _ & He).
  exists e, w'. split; [exact Hrun|]. split; [exact Hfiles|]. exact He.
Defined.

(** ** [export_to_ical] *)

(** C9.  [export_to_ical] never raises: it returns a boolean.  It returns
    [False], after printing what went wrong, when the [icalendar] package
    is missing and when the output file cannot be opened or written; and it
    returns [True] exactly when the calendar file was written. *)
Theorem export_to_ical_reports (schedule : list activity) (output_file : string) (w : world) :
  exists (b : bool) (w' : world),
    ICalExport.export_to_ical schedule output_file w = (Ok b, w')
    /\ (icalendar_installed w = false -> b = false)
    /\ (open_refused w output_file = true \/ write_refused w output_file = true ->
        b = false)
    /\ (b = true <-> exists cal, written w' = (output_file, IcsFile cal) :: written w)
    /\ (b = true ->
        exists cal, files w' !! output_file = Some (IcsFile cal)
                    /\ written w' = (output_file, IcsFile cal) :: written w
                    /\ stdout w' = stdout w)
    /\ (b = false ->
        written w' = written w
        /\ exists lines, lines <> [] /\ stdout w' = lines ++ stdout w).
Proof.
  assert (Hno : forall (w' : world) (lines : list string),
            written w' = written w -> lines <> [] -> stdout w' = lines ++ stdout w ->
            (false = true <-> exists cal, written w' = (output_file, IcsFile cal) :: written w)
            /\ (false = true ->
                exists cal, files w' !! output_file = Some (IcsFile cal)
                            /\ written w' = (output_file, IcsFile cal) :: written w
                            /\ stdout w' = stdout w)
            /\ (false = false ->
                written w' = written w
                /\ exists lines, lines <> [] /\ stdout w' = lines ++ stdout w)).
  { intros w' lines Hw Hl Hs. split; [|split].
    - split; [discriminate|]. intros [cal H]. rewrite Hw in H.
      exfalso. exact (list_neq_cons _ _ H).
    - discriminate.
    - intros _. split; [exact Hw|]. exists lines. auto. }
  unfold ICalExport.export_to_ical, ICalExport.export_body, io_bind, import_icalendar.
  destruct (icalendar_installed w) eqn:Hi.
  - destruct (ICalExport.add_events schedule ICalExport.new_calendar w) as [[cal|e] w1] eqn:Ea;
      pose proof (add_events_world _ _ _ _ _ Ea) as Hw1.
    + assert (Hsame : open_refused w1 = open_refused w /\ write_refused w1 = write_refused w
                      /\ written w1 = written w /\ stdout w1 = stdout w)
        by (rewrite Hw1; repeat split).
      destruct Hsame as (Hsame_o & Hsame_w & Hsame_l & Hsame_s).
      unfold open_for_writing. rewrite Hsame_o.
      destruct (open_refused w output_file) eqn:Ho.
      * eexists false, _. split; [reflexivity|]. split; [reflexivity|]. split; [reflexivity|].
        apply (Hno _ ["Error creating iCalendar file: cannot open file"]);
          [exact Hsame_l|discriminate|cbn; rewrite Hsame_s; reflexivity].
      * unfold write_and_close. cbn [write_refused with_files]. rewrite Hsame_w.
        destruct (write_refused w output_file) eqn:Hwr.
        -- eexists false, _. split; [reflexivity|]. split; [reflexivity|].
           split; [reflexivity|].
           apply (Hno _ ["Error creating iCalendar file: cannot write file"]);
             [exact Hsame_l|discriminate|cbn; rewrite Hsame_s; reflexivity].
        -- eexists true, _. split; [reflexivity|]. split; [discriminate|].
           split; [intros [H|H]; discriminate|].
           cbn [files written stdout with_written with_files].
           rewrite Hsame_l, Hsame_s. split; [|split].
           ++ split; [intros _; exists cal; reflexivity|reflexivity].
           ++ intros _. exists cal. rewrite lookup_insert_eq. auto.
           ++ discriminate.
    + assert (Hfalse : exists w',
                (match e with
                 | ImportError _ =>
                     (let* _ := print "Could not create iCalendar file: icalendar package not installed" in
                      let* _ := print "Install with: pip install icalendar" in
                      io_ret false) w1
                 | _ => (let* _ := print ("Error creating iCalendar file: " +:+ exn_message e) in
                         io_ret false) w1
                 end) = (Ok false, w')
                /\ written w' = written w
                /\ exists lines, lines <> [] /\ stdout w' = lines ++ stdout w).
      { rewrite Hw1. destruct e; eexists; (split; [reflexivity|]); (split; [reflexivity|]).
        - exists ["Error creating iCalendar file: " +:+ msg]. split; [discriminate|reflexivity].
        - exists ["Error creating iCalendar file: " +:+ msg]. split; [discriminate|reflexivity].
        - exists ["Install with: pip install icalendar";
                  "Could not create iCalendar file: icalendar package not installed"].
          split; [discriminate|reflexivity].
        - exists ["Error creating iCalendar file: " +:+ msg]. split; [discriminate|reflexivity]. }
      destruct Hfalse as (w' & Hrun & Hwr & lines & Hl & Hs).
      exists false, w'. split; [destruct e; exact Hrun|].
      split; [reflexivity|]. split; [reflexivity|].
      apply (Hno w' lines); assumption.
  - eexists false, _. split; [reflexivity|]. split; [reflexivity|]. split; [reflexivity|].
    apply (Hno _ ["Install with: pip install icalendar";
                  "Could not create iCalendar file: icalendar package not installed"]);
      [reflexivity|discriminate|reflexivity].
Qed.




End Properties.

(** * Beyond the stated properties: more of the code *)

(** ** [Set]: the views of a set and the round trip *)

Section SetViews.
Import Calendar Text CalendarFacts TextFacts.

Lemma add_days_raises dt k : max_ordinal < ordinal dt + k -> add_days dt k = Raise overflow.
Proof.
  intros H. unfold add_days.
  destruct (in_calendar (ordinal dt + k)) eqn:E; [|reflexivity].
  apply in_calendar_true in E. lia.
Qed.

Lemma get_review_events_late s :
  0 <= ordinal (G5Set.learn_date s) -> max_ordinal < ordinal (G5Set.learn_date s) + 14 ->
  G5Set.get_review_events s = Raise overflow.
Proof.
  intros H0 H14. unfold G5Set.get_review_events.
  change (enumerate (G5Set.review_days s))
    with [(0%nat, 2); (1%nat, 4); (2%nat, 8); (3%nat, 15)].
  cbn [result_mapM]. unfold mbind, result_mbind. cbv beta iota.
  rewrite (add_days_raises _ (15 - 1)) by lia.
  destruct (add_days (G5Set.learn_date s) (2 - 1)) as [d1|e1] eqn:E1.
  - destruct (add_days (G5Set.learn_date s) (4 - 1)) as [d2|e2] eqn:E2.
    + destruct (add_days (G5Set.learn_date s) (8 - 1)) as [d3|e3] eqn:E3; [reflexivity|].
      unfold add_days in E3. destruct (in_calendar _); [discriminate|]. injection E3 as <-. reflexivity.
    + unfold add_days in E2. destruct (in_calendar _); [discriminate|]. injection E2 as <-. reflexivity.
  - unfold add_days in E1. destruct (in_calendar _); [discriminate|]. injection E1 as <-. reflexivity.
Qed.

Lemma to_dict_in_range s :
  0 <= ordinal (G5Set.learn_date s) -> ordinal (G5Set.learn_date s) + 14 <= max_ordinal ->
  G5Set.to_dict s = Ok (set_dict_of s).
Proof.
  intros H0 H14. unfold G5Set.to_dict, G5Set.review_days. cbn [result_mapM].
  unfold mbind, result_mbind. rewrite !add_days_in_range by lia. reflexivity.
Qed.

Lemma to_dict_late s :
  0 <= ordinal (G5Set.learn_date s) -> max_ordinal < ordinal (G5Set.learn_date s) + 14 ->
  G5Set.to_dict s = Raise overflow.
Proof.
  intros H0 H14. unfold G5Set.to_dict, G5Set.review_days. cbn [result_mapM].
  unfold mbind, result_mbind. 
  rewrite (add_days_raises _ (15 - 1)) by lia.
  destruct (add_days (G5Set.learn_date s) (2 - 1)) as [d1|e1] eqn:E1.
  - destruct (add_days (G5Set.learn_date s) (4 - 1)) as [d2|e2] eqn:E2.
    + destruct (add_days (G5Set.learn_date s) (8 - 1)) as [d3|e3] eqn:E3; [reflexivity|].
      unfold add_days in E3. destruct (in_calendar _); [discriminate|]. injection E3 as <-. reflexivity.
    + unfold add_days in E2. destruct (in_calendar _); [discriminate|]. injection E2 as <-. reflexivity.
  - unfold add_days in E1. destruct (in_calendar _); [discriminate|]. injection E1 as <-. reflexivity.
Qed.

Lemma get_all_events_late s :
  0 <= ordinal (G5Set.learn_date s) -> max_ordinal < ordinal (G5Set.learn_date s) + 14 ->
  G5Set.get_all_events s = Raise overflow.
Proof.
  intros H0 H14. unfold G5Set.get_all_events, mbind, result_mbind.
  rewrite get_review_events_late by assumption. reflexivity.
Qed.

(** X1.  For every set whose learn date is a date of the calendar, the three
    views of its reviews stand or fall together: when the fourteenth day
    after the learn date exists, [get_review_events], [get_all_events] and
    [to_dict] all return, with the dates [learn_date + 1, 3, 7, 14]; when it
    does not (a learn date after 9999-12-17), all three raise
    [OverflowError], and none of them returns the reviews that would still
    fit. *)
Theorem set_views_fail_together (s : G5Set.t) :
  valid_datetime (G5Set.learn_date s) ->
  (ordinal (G5Set.learn_date s) + 14 <= max_ordinal ->
   G5Set.get_review_events s = Ok (set_reviews s)
   /\ G5Set.get_all_events s = Ok (set_events s)
   /\ G5Set.to_dict s = Ok (set_dict_of s))
  /\ (max_ordinal < ordinal (G5Set.learn_date s) + 14 ->
      G5Set.get_review_events s = Raise overflow
      /\ G5Set.get_all_events s = Raise overflow
      /\ G5Set.to_dict s = Raise overflow).
Proof.
  intros [[H1 _] _]. split; intros H.
  - split; [apply get_review_events_in_range; lia|].
    split; [apply get_all_events_in_range; lia|apply to_dict_in_range; lia].
  - split; [apply get_review_events_late; lia|].
    split; [apply get_all_events_late; lia|apply to_dict_late; lia].
Qed.

Lemma set_views_fail_together_witness :
  valid_datetime (G5Set.learn_date late_set)
  /\ max_ordinal < ordinal (G5Set.learn_date late_set) + 14
  /\ G5Set.get_review_events late_set = Raise overflow
  /\ G5Set.get_all_events late_set = Raise overflow
  /\ G5Set.to_dict late_set = Raise overflow.
Proof.
  assert (Hv : valid_datetime (G5Set.learn_date late_set))
    by (unfold valid_datetime, late_set, last_day, max_ordinal, usec_per_day; cbn; lia).
  assert (Hl : max_ordinal < ordinal (G5Set.learn_date late_set) + 14)
    by (unfold late_set, last_day, max_ordinal; cbn; lia).
  split; [exact Hv|]. split; [exact Hl|].
  exact (proj2 (set_views_fail_together late_set Hv) Hl).
Defined.

Lemma to_dict_Ok s d :
  G5Set.to_dict s = Ok d ->
  d = set_dict_of s
  /\ 0 <= ordinal (G5Set.learn_date s) /\ ordinal (G5Set.learn_date s) + 14 <= max_ordinal.
Proof.
  intros H.
  assert (Hr : 0 <= ordinal (G5Set.learn_date s)
               /\ ordinal (G5Set.learn_date s) + 14 <= max_ordinal).
  { unfold G5Set.to_dict, G5Set.review_days in H. cbn [result_mapM] in H.
    unfold mbind, result_mbind in H.
    destruct (add_days (G5Set.learn_date s) (2 - 1)) eqn:E1; [|discriminate].
    destruct (add_days (G5Set.learn_date s) (4 - 1)) eqn:E2; [|discriminate].
    destruct (add_days (G5Set.learn_date s) (8 - 1)) eqn:E3; [|discriminate].
    destruct (add_days (G5Set.learn_date s) (15 - 1)) eqn:E4; [|discriminate].
    apply add_days_Ok in E1 as [? _]. apply add_days_Ok in E4 as [? _]. lia. }
  destruct Hr as [H0 H14]. rewrite to_dict_in_range in H by assumption.
  injection H as <-. auto.
Qed.

(** X2.  Whenever [Set.to_dict] returns, [get_review_events] returns too, and
    the dictionary's [review_days] are the dates of those review events, in
    the same order and written as YYYY-MM-DD; there are four of them;
    [learned_on] is the date of the learning event and [set] is the name. *)
Theorem to_dict_matches_review_events (s : G5Set.t) (d : set_dict) :
  G5Set.to_dict s = Ok d ->
  exists reviews,
    G5Set.get_review_events s = Ok reviews
    /\ sd_review_days d = map (fun r => strftime_Ymd (re_date r)) reviews
    /\ length (sd_review_days d) = 4%nat
    /\ sd_learned_on d = strftime_Ymd (le_date (G5Set.get_learning_event s))
    /\ sd_set d = G5Set.name s.
Proof.
  intros H. apply to_dict_Ok in H as (-> & H0 & H14).
  exists (set_reviews s). split; [apply get_review_events_in_range; assumption|].
  repeat split.
Qed.

Lemma to_dict_matches_review_events_witness :
  G5Set.to_dict (G5Set.init "Set 01" april_7)
  = Ok {| sd_set := "Set 01"; sd_learned_on := "2025-04-07";
          sd_review_days := ["2025-04-08"; "2025-04-10"; "2025-04-14"; "2025-04-21"] |}
  /\ exists reviews,
       G5Set.get_review_events (G5Set.init "Set 01" april_7) = Ok reviews
       /\ map (fun r => strftime_Ymd (re_date r)) reviews
          = ["2025-04-08"; "2025-04-10"; "2025-04-14"; "2025-04-21"].
Proof.
  assert (H : G5Set.to_dict (G5Set.init "Set 01" april_7)
              = Ok {| sd_set := "Set 01"; sd_learned_on := "2025-04-07";
                      sd_review_days := ["2025-04-08"; "2025-04-10"; "2025-04-14"; "2025-04-21"] |})
    by reflexivity.
  split; [exact H|].
  destruct (to_dict_matches_review_events _ _ H) as (rs & Hrs & Hd & _).
  exists rs. split; [exact Hrs|]. symmetry. exact Hd.
Defined.

Lemma build_datetime_cases fields :
  (exists msg, build_datetime fields = Raise (ValueError msg))
  \/ (exists n, build_datetime fields = Ok (midnight n) /\ 1 <= n <= max_ordinal).
Proof.
  unfold build_datetime.
  destruct fields as [[[[y m] dd] [|c rest]]|]; try (left; eexists; reflexivity).
  destruct (valid_ymd y m dd) eqn:Hv; [|left; eexists; reflexivity].
  right. eexists. split; [reflexivity|]. apply ymd2ord_range. exact Hv.
Qed.







End SetViews.

(** ** [G5Schedule]: views, repeated calls and the table *)

Section ScheduleViews.
Import Calendar Text CalendarFacts TextFacts.





(** Late sets *)




Lemma result_mapM_late ss :
  Forall (fun s => valid_datetime (G5Set.learn_date s)) ss ->
  Exists late ss ->
  result_mapM G5Set.to_dict ss = Raise overflow.
Proof.
  intros Hv. induction Hv as [|s ss [[H1 _] _] Hv IH]; intros Hex; [inversion Hex|].
  cbn [result_mapM]. destruct (decide (late s)) as [Hl|Hl].
  - rewrite to_dict_late by (unfold late in Hl; lia). reflexivity.
  - rewrite to_dict_in_range by (unfold late in Hl; lia). cbn [result_bind].
    rewrite IH; [reflexivity|].
    apply Exists_cons in Hex as [Hex|Hex]; [contradiction|exact Hex].
Qed.

Lemma result_mapM_to_dict_in_range ss : in_range ss ->
  result_mapM G5Set.to_dict ss = Ok (map set_dict_of ss).
Proof.
  intros Hr. apply result_mapM_Ok. intros s Hs. destruct (Hr s Hs).
  apply to_dict_in_range; lia.
Qed.

Lemma to_dict_schedule_in_range self : in_range (G5Schedule.sets self) ->
  G5Schedule.to_dict self = Ok (schedule_dict_of self).
Proof.
  intros Hr. unfold G5Schedule.to_dict, mbind, result_mbind.
  rewrite result_mapM_to_dict_in_range by exact Hr. cbn [result_bind].
  rewrite get_activity_list_in_range by exact Hr. reflexivity.
Qed.

Lemma valid_not_late_in_range ss :
  Forall (fun s => valid_datetime (G5Set.learn_date s)) ss ->
  ~ Exists late ss -> in_range ss.
Proof.
  intros Hv Hn s Hs. rewrite Forall_forall in Hv. destruct (Hv s Hs) as [[H1 _] _].
  split; [exact H1|]. destruct (decide (late s)) as [Hl|Hl].
  - exfalso. apply Hn. apply Exists_exists. eauto.
  - unfold late in Hl. lia.
Qed.



Lemma to_dict_schedule_late self :
  Forall (fun s => valid_datetime (G5Set.learn_date s)) (G5Schedule.sets self) ->
  Exists late (G5Schedule.sets self) ->
  G5Schedule.to_dict self = Raise overflow.
Proof.
  intros Hv Hex. unfold G5Schedule.to_dict, mbind, result_mbind.
  rewrite result_mapM_late by assumption. reflexivity.
Qed.



Lemma add_new_sets_in_range self n k :
  1 <= ordinal (G5Schedule.start_date self) ->
  ordinal (G5Schedule.start_date self) + (n - 1) <= max_ordinal ->
  G5Schedule.add_new_sets self n k
  = (Ok tt, {| G5Schedule.start_date := G5Schedule.start_date self;
               G5Schedule.sets := G5Schedule.sets self
                                    ++ batch (G5Schedule.start_date self) k n |}).
Proof.
  intros H1 Hn. destruct self as [start acc]. cbn [G5Schedule.start_date G5Schedule.sets] in *.
  unfold G5Schedule.add_new_sets, batch, G5Schedule.range.
  apply add_new_sets_loop_in_range. intros i Hi. apply elem_of_seqZ in Hi. lia.
Qed.

Lemma lookup_batch start k n i : 0 <= i < n ->
  batch start k n !! Z.to_nat i = Some (new_set start k i).
Proof.
  intros Hi. unfold batch, G5Schedule.range. change (map ?f ?l) with (f <$> l).
  rewrite list_lookup_fmap, (lookup_seqZ_lt 0 n (Z.to_nat i)) by lia.
  cbn [fmap option_fmap option_map]. rewrite Z2Nat.id, Z.add_0_l by lia. reflexivity.
Qed.


Lemma strftime_Ymd_inj a b :
  1 <= ordinal a <= max_ordinal -> 1 <= ordinal b <= max_ordinal ->
  strftime_Ymd a = strftime_Ymd b -> ordinal a = ordinal b.
Proof.
  intros Ha Hb E. rewrite <- (key_day_strftime a Ha), <- (key_day_strftime b Hb), E.
  reflexivity.
Qed.

Lemma filter_unique {A B} `{!EqDecision A} (P : B -> Prop) `{!forall x, Decision (P x)} (f : A -> B)
    (l : list A) (i : A) :
  NoDup l -> i ∈ l -> (forall j, j ∈ l -> P (f j) <-> j = i) ->
  filter P (map f l) = [f i].
Proof.
  induction l as [|x l IH]; intros Hnd Hi HP; [inversion Hi|].
  apply NoDup_cons in Hnd as [Hx Hnd]. cbn [map]. rewrite filter_cons.
  destruct (decide (x = i)) as [->|Hne].
  - rewrite decide_True by (apply HP; [left|reflexivity]). f_equal.
    assert (Hnone : forall l', (forall j, j ∈ l' -> ~ P (f j)) -> filter P (map f l') = []).
    { clear. intros l'. induction l' as [|y l' IH']; intros Hno; [reflexivity|].
      cbn [map]. rewrite filter_cons, decide_False by (apply Hno; left).
      apply IH'. intros j Hj. apply Hno. right. exact Hj. }
    apply Hnone. intros j Hj Hp. apply HP in Hp; [|right; exact Hj]. subst j. contradiction.
  - rewrite decide_False by (intros Hp; apply HP in Hp; [contradiction|left]).
    apply IH; [exact Hnd| |].
    + apply elem_of_cons in Hi as [Hi|Hi]; [congruence|exact Hi].
    + intros j Hj. apply HP. right. exact Hj.
Qed.

Lemma learners_in_batch start k n i :
  1 <= ordinal start -> ordinal start + (n - 1) <= max_ordinal -> 0 <= i < n ->
  filter (fun s => strftime_Ymd (G5Set.learn_date s) = strftime_Ymd (plus_days start i))
         (batch start k n)
  = [new_set start k i].
Proof.
  intros H1 Hn Hi. unfold batch, G5Schedule.range.
  apply (filter_unique
           (fun s => strftime_Ymd (G5Set.learn_date s) = strftime_Ymd (plus_days start i))).
  - apply NoDup_seqZ.
  - apply elem_of_seqZ. lia.
  - intros j Hj. apply elem_of_seqZ in Hj. cbn [new_set G5Set.init G5Set.learn_date]. split.
    + intros E. apply strftime_Ymd_inj in E; cbn [plus_days ordinal] in *; lia.
    + intros ->. reflexivity.
Qed.

Lemma new_words_on_app k l1 l2 :
  new_words_on k (l1 ++ l2)
  = match new_words_on k l2 with Some x => Some x | None => new_words_on k l1 end.
Proof.
  unfold new_words_on. rewrite filter_app, map_app.
  destruct (map G5Set.name (filter _ l2)) as [|x l] eqn:E using rev_ind.
  - rewrite app_nil_r. reflexivity.
  - rewrite app_assoc, !last_snoc. reflexivity.
Qed.

Lemma new_words_on_batch start k n i :
  1 <= ordinal start -> ordinal start + (n - 1) <= max_ordinal -> 0 <= i < n ->
  new_words_on (strftime_Ymd (plus_days start i)) (batch start k n)
  = Some ("Set " +:+ format_0d 2 (k + i)).
Proof.
  intros H1 Hn Hi. unfold new_words_on. rewrite learners_in_batch by assumption. reflexivity.
Qed.

Lemma batch_in_range start k n :
  1 <= ordinal start -> ordinal start + (n - 1) + 14 <= max_ordinal ->
  in_range (batch start k n).
Proof.
  intros H1 Hn s Hs. unfold batch, G5Schedule.range in Hs. change (map ?f ?l) with (f <$> l) in Hs.
  apply list_elem_of_fmap in Hs as (j & -> & Hj). apply elem_of_seqZ in Hj.
  unfold set_in_range. cbn [new_set G5Set.init G5Set.learn_date plus_days ordinal]. lia.
Qed.

Lemma all_events_app l1 l2 : all_events (l1 ++ l2) = all_events l1 ++ all_events l2.
Proof. unfold all_events. rewrite map_app, concat_app. reflexivity. Qed.

Lemma in_range_app l1 l2 : in_range l1 -> in_range l2 -> in_range (l1 ++ l2).
Proof. intros H1 H2 s Hs. apply elem_of_app in Hs as [Hs|Hs]; auto. Qed.

(** X7.  [add_new_sets] called a second time on the same schedule starts
    again at the start date, not after the sets already there: the second
    batch is appended after the first, and its i-th set is learned on
    [start_date + i], the very day of the i-th set of the first batch.  On
    each such shared day the entry of [get_events_by_date] has the set of
    the second batch (the one added later) as its "New Words". *)
Theorem add_new_sets_twice (self : G5Schedule.t) (n1 k1 n2 k2 : Z) :
  valid_datetime (G5Schedule.start_date self) ->
  in_range (G5Schedule.sets self) ->
  ordinal (G5Schedule.start_date self) + (n1 - 1) + 14 <= max_ordinal ->
  ordinal (G5Schedule.start_date self) + (n2 - 1) + 14 <= max_ordinal ->
  let start := G5Schedule.start_date self in
  let once := (G5Schedule.add_new_sets self n1 k1).2 in
  exists twice by_date,
    G5Schedule.add_new_sets once n2 k2 = (Ok tt, twice)
    /\ G5Schedule.sets twice
       = G5Schedule.sets self ++ batch start k1 n1 ++ batch start k2 n2
    /\ G5Schedule.get_events_by_date twice = Ok by_date
    /\ (forall i, 0 <= i < n1 -> 0 <= i < n2 ->
          (exists a b, batch start k1 n1 !! Z.to_nat i = Some a
                       /\ batch start k2 n2 !! Z.to_nat i = Some b
                       /\ G5Set.learn_date a = plus_days start i
                       /\ G5Set.learn_date b = plus_days start i)
          /\ exists entry,
               by_date !! strftime_Ymd (plus_days start i) = Some entry
               /\ New_Words entry = Some ("Set " +:+ format_0d 2 (k2 + i))).
Proof.
  intros [[H1 _] _] Hself Hn1 Hn2 start once. subst once start.
  rewrite (add_new_sets_in_range self n1 k1) by lia. cbn [snd].
  rewrite add_new_sets_in_range by (cbn [G5Schedule.start_date]; lia).
  cbn [G5Schedule.start_date G5Schedule.sets].
  set (start := G5Schedule.start_date self) in *.
  assert (Hr : in_range ((G5Schedule.sets self ++ batch start k1 n1) ++ batch start k2 n2)).
  { repeat apply in_range_app; [exact Hself|apply batch_in_range..]; assumption. }
  eexists _, _. split; [reflexivity|]. cbn [G5Schedule.sets].
  split; [rewrite <- app_assoc; reflexivity|].
  split; [apply get_events_by_date_in_range; exact Hr|].
  intros i Hi1 Hi2. split.
  - exists (new_set start k1 i), (new_set start k2 i).
    split; [apply lookup_batch; exact Hi1|]. split; [apply lookup_batch; exact Hi2|].
    split; reflexivity.
  - eexists. split.
    + apply lookup_events_map_Some. split; [|reflexivity].
      exists (Learn (G5Set.get_learning_event (new_set start k2 i))). split; [|reflexivity].
      apply elem_of_all_events. exists (new_set start k2 i). split; [|left].
      apply elem_of_app. right.
      apply (list_elem_of_lookup_2 _ (Z.to_nat i)). apply lookup_batch. exact Hi2.
    + cbn [New_Words G5Schedule.sets].
      rewrite new_words_on_app, new_words_on_batch by (assumption || lia).
      reflexivity.
Qed.

Lemma add_new_sets_twice_witness :
  valid_datetime (G5Schedule.start_date (G5Schedule.init april_7))
  /\ in_range (G5Schedule.sets (G5Schedule.init april_7))
  /\ ordinal (G5Schedule.start_date (G5Schedule.init april_7)) + (2 - 1) + 14 <= max_ordinal
  /\ ordinal (G5Schedule.start_date (G5Schedule.init april_7)) + (1 - 1) + 14 <= max_ordinal
  /\ exists twice by_date,
       G5Schedule.add_new_sets (G5Schedule.add_new_sets (G5Schedule.init april_7) 2 1).2 1 3
       = (Ok tt, twice)
       /\ map G5Set.learn_date (G5Schedule.sets twice)
          = [april_7; plus_days april_7 1; april_7]
       /\ G5Schedule.get_events_by_date twice = Ok by_date
       /\ exists entry, by_date !! "2025-04-07" = Some entry
                        /\ New_Words entry = Some "Set 03".
Proof.
  assert (Hv : valid_datetime (G5Schedule.start_date (G5Schedule.init april_7)))
    by (unfold valid_datetime, max_ordinal, usec_per_day; cbn; lia).
  assert (Hr : in_range (G5Schedule.sets (G5Schedule.init april_7)))
    by (intros s Hs; inversion Hs).
  assert (H2 : ordinal (G5Schedule.start_date (G5Schedule.init april_7)) + (2 - 1) + 14
               <= max_ordinal) by (unfold max_ordinal; cbn; lia).
  assert (H3 : ordinal (G5Schedule.start_date (G5Schedule.init april_7)) + (1 - 1) + 14
               <= max_ordinal) by (unfold max_ordinal; cbn; lia).
  split; [exact Hv|]. split; [exact Hr|]. split; [exact H2|]. split; [exact H3|].
  destruct (add_new_sets_twice (G5Schedule.init april_7) 2 1 1 3 Hv Hr H2 H3)
    as (twice & by_date & Hadd & Hsets & Hev & Hday).
  exists twice, by_date. split; [exact Hadd|]. split; [rewrite Hsets; reflexivity|].
  split; [exact Hev|]. exact (proj2 (Hday 0 ltac:(lia) ltac:(lia))).
Defined.

Lemma add_new_sets_loop_app idx1 idx2 self k :
  G5Schedule.add_new_sets_loop self k (idx1 ++ idx2)
  = match G5Schedule.add_new_sets_loop self k idx1 with
    | (Ok _, self') => G5Schedule.add_new_sets_loop self' k idx2
    | (Raise e, self') => (Raise e, self')
    end.
Proof.
  revert self. induction idx1 as [|i idx1 IH]; intros self; [reflexivity|].
  cbn [app G5Schedule.add_new_sets_loop].
  destruct (add_days (G5Schedule.start_date self) i); [apply IH|reflexivity].
Qed.

(** X8.  When the requested sets run past 9999-12-31, [add_new_sets] raises
    [OverflowError] and the schedule keeps the sets appended before the
    exception: exactly the ones whose learn date still exists, from the
    start date to 9999-12-31, at least one and fewer than requested. *)
Theorem add_new_sets_keeps_what_fits (self : G5Schedule.t) (n k : Z) :
  valid_datetime (G5Schedule.start_date self) ->
  max_ordinal < ordinal (G5Schedule.start_date self) + (n - 1) ->
  let start := G5Schedule.start_date self in
  let fits := max_ordinal - ordinal start + 1 in
  1 <= fits < n
  /\ G5Schedule.add_new_sets self n k
     = (Raise overflow,
        {| G5Schedule.start_date := start;
           G5Schedule.sets := G5Schedule.sets self ++ batch start k fits |}).
Proof.
  intros [[H1 Hmax] _] Hover start fits. subst start fits.
  split; [lia|]. destruct self as [start acc]. cbn [G5Schedule.start_date G5Schedule.sets] in *.
  unfold G5Schedule.add_new_sets, G5Schedule.range.
  set (fits := max_ordinal - ordinal start + 1).
  replace n with (fits + (n - fits)) at 1 by lia.
  rewrite seqZ_app by lia. rewrite add_new_sets_loop_app.
  rewrite add_new_sets_loop_in_range
    by (intros i Hi; apply elem_of_seqZ in Hi; unfold fits in Hi; lia).
  rewrite Z.add_0_l.
  rewrite (seqZ_cons fits (n - fits)) by (unfold fits; lia).
  cbn [G5Schedule.add_new_sets_loop G5Schedule.start_date].
  rewrite add_days_raises by (unfold fits; lia). reflexivity.
Qed.

Lemma add_new_sets_keeps_what_fits_witness :
  valid_datetime (G5Schedule.start_date (G5Schedule.init (midnight (max_ordinal - 1))))
  /\ max_ordinal
     < ordinal (G5Schedule.start_date (G5Schedule.init (midnight (max_ordinal - 1)))) + (5 - 1)
  /\ exists left_behind,
       G5Schedule.add_new_sets (G5Schedule.init (midnight (max_ordinal - 1))) 5 1
       = (Raise overflow, left_behind)
       /\ map G5Set.name (G5Schedule.sets left_behind) = ["Set 01"; "Set 02"].
Proof.
  assert (Hv : valid_datetime
                 (G5Schedule.start_date (G5Schedule.init (midnight (max_ordinal - 1)))))
    by (unfold valid_datetime, max_ordinal, usec_per_day; cbn; lia).
  assert (Ho : max_ordinal
               < ordinal (G5Schedule.start_date (G5Schedule.init (midnight (max_ordinal - 1))))
                 + (5 - 1)) by (unfold max_ordinal; cbn; lia).
  split; [exact Hv|]. split; [exact Ho|].
  destruct (add_new_sets_keeps_what_fits _ 5 1 Hv Ho) as [_ H].
  eexists. split; [exact H|]. reflexivity.
Defined.




Lemma result_mapM_to_dict_Ok ss ds :
  result_mapM G5Set.to_dict ss = Ok ds -> ds = map set_dict_of ss.
Proof.
  revert ds. induction ss as [|s ss IH]; intros ds H; cbn [result_mapM map] in *.
  - injection H as <-. reflexivity.
  - destruct (G5Set.to_dict s) as [d|e] eqn:E; [|discriminate].
    apply to_dict_Ok in E as (-> & _). cbn [result_bind] in H.
    destruct (result_mapM G5Set.to_dict ss) as [ds'|e]; [|discriminate].
    cbn [result_bind] in H. injection H as <-. rewrite (IH ds' eq_refl). reflexivity.
Qed.

Lemma to_dict_schedule_Ok self d :
  G5Schedule.to_dict self = Ok d -> d = schedule_dict_of self.
Proof.
  unfold G5Schedule.to_dict, mbind, result_mbind. intros H.
  destruct (result_mapM G5Set.to_dict (G5Schedule.sets self)) as [ds|e] eqn:E; [|discriminate].
  apply result_mapM_to_dict_Ok in E as ->. cbn [result_bind] in H.
  destruct (G5Schedule.get_activity_list self) as [l|e] eqn:El; [|discriminate].
  apply get_activity_list_Ok in El as ->. cbn [result_bind] in H.
  injection H as <-. reflexivity.
Qed.

Lemma activities_of_set_dict s : activities_of_dict (set_dict_of s) = set_activities s.
Proof. reflexivity. Qed.

(** X10.  The two parts of the dictionary that [G5Schedule.to_dict] returns
    say the same thing: [full_schedule] is, set by set and in the order of
    [sets], the "Learn" activity on [learned_on] followed by the activities
    "Review ... (R1)" to "(R4)" on the four [review_days].  The names in
    [sets] are the names of the schedule's sets, each set has four review
    days, [full_schedule] has five activities per set, and [start_date] is
    the schedule's start date as YYYY-MM-DD. *)
Theorem json_views_agree (self : G5Schedule.t) (d : schedule_dict) :
  G5Schedule.to_dict self = Ok d ->
  d_full_schedule d = concat (map activities_of_dict (d_sets d))
  /\ map sd_set (d_sets d) = map G5Set.name (G5Schedule.sets self)
  /\ Forall (fun sd => length (sd_review_days sd) = 4%nat) (d_sets d)
  /\ length (d_full_schedule d) = (5 * length (G5Schedule.sets self))%nat
  /\ d_start_date d = strftime_Ymd (G5Schedule.start_date self).
Proof.
  intros H. apply to_dict_schedule_Ok in H as ->.
  unfold schedule_dict_of. cbn [d_full_schedule d_sets d_start_date].
  split; [rewrite map_map; reflexivity|].
  split; [rewrite map_map; reflexivity|].
  split; [apply Forall_forall; intros sd Hsd; change (map ?f ?l) with (f <$> l) in Hsd;
          apply list_elem_of_fmap in Hsd as (s & -> & _); reflexivity|].
  split; [|reflexivity].
  induction (G5Schedule.sets self) as [|s ss IH]; [reflexivity|].
  cbn [map concat]. rewrite length_app, IH. cbn [length set_activities]. lia.
Qed.

Lemma json_views_agree_witness :
  exists d, G5Schedule.to_dict two_day_schedule = Ok d
            /\ d_full_schedule d = concat (map activities_of_dict (d_sets d))
            /\ length (d_full_schedule d) = 10%nat.
Proof.
  assert (H : G5Schedule.to_dict two_day_schedule = Ok (schedule_dict_of two_day_schedule))
    by (vm_compute; reflexivity).
  destruct (json_views_agree _ _ H) as (H1 & _ & _ & H2 & _).
  eexists. split; [exact H|]. split; [exact H1|exact H2].
Defined.




End ScheduleViews.

(** ** Files: [save_to_json] and the calendar exporter *)

Section Files.
Import Calendar Text CalendarFacts TextFacts.

Lemma date_add_days_Ok d k n : date_add_days d k = Ok n -> n = d + k /\ 1 <= d + k <= max_ordinal.
Proof.
  unfold date_add_days, in_calendar. intros H.
  destruct ((1 <=? d + k) && (d + k <=? max_ordinal)) eqn:E; [|discriminate].
  injection H as <-. apply andb_true_iff in E as [E1 E2]. lia.
Qed.

Lemma strptime_Ymd_cases s :
  (exists msg, strptime_Ymd s = Raise (ValueError msg))
  \/ (exists n, strptime_Ymd s = Ok (midnight n) /\ 1 <= n <= max_ordinal).
Proof. apply build_datetime_cases. Qed.

Lemma event_of_activity_cases a w :
  (exportable a
   /\ ICalExport.event_of_activity a w
      = (Ok (expected_event a (uuid4_source w (uuid4_calls w))),
         with_uuid4_calls (S (uuid4_calls w)) w))
  \/ (~ exportable a
      /\ exists e, conversion_error e /\ ICalExport.event_of_activity a w = (Raise e, w)).
Proof.
  destruct (strptime_Ymd_cases (Date a)) as [[msg Hs]|(n & Hs & Hn)].
  - right. split.
    + intros (d & Hd & _). congruence.
    + exists (ValueError msg). split; [right; eauto|].
      unfold ICalExport.event_of_activity, io_bind, io_lift. rewrite Hs. reflexivity.
  - destruct (decide (n + 1 <= max_ordinal)) as [Hle|Hgt].
    + left. assert (He : exportable a) by (exists (midnight n); split; [exact Hs|exact Hle]).
      split; [exact He|]. apply event_of_activity_exportable. exact He.
    + right. split.
      * intros (d & Hd & Hle). rewrite Hs in Hd. injection Hd as <-.
        cbn [ordinal midnight] in Hle. lia.
      * exists overflow. split; [left; reflexivity|].
        unfold ICalExport.event_of_activity, io_bind, io_lift. rewrite Hs.
        cbn [ordinal midnight]. unfold date_add_days, in_calendar.
        replace (n + 1 <=? max_ordinal) with false by (symmetry; apply Z.leb_gt; lia).
        rewrite andb_false_r. reflexivity.
Qed.

Lemma add_events_not_exportable schedule cal w :
  ~ Forall exportable schedule ->
  exists e n, conversion_error e
              /\ ICalExport.add_events schedule cal w = (Raise e, with_uuid4_calls n w).
Proof.
  revert cal w. induction schedule as [|a rest IH]; intros cal w Hno.
  - exfalso. apply Hno. constructor.
  - cbn [ICalExport.add_events]. unfold io_bind at 1.
    destruct (event_of_activity_cases a w) as [[He Hrun]|(Hne & e & Hce & Hrun)];
      rewrite Hrun.
    + destruct (IH {| cal_properties := cal_properties cal;
                      cal_components := cal_components cal
                        ++ [expected_event a (uuid4_source w (uuid4_calls w))] |}
                   (with_uuid4_calls (S (uuid4_calls w)) w)) as (e & n & Hce & Hr).
      { intros Hall. apply Hno. constructor; assumption. }
      exists e, n. split; [exact Hce|]. rewrite Hr, with_uuid4_calls_twice. reflexivity.
    + exists e, (uuid4_calls w). split; [exact Hce|]. rewrite with_uuid4_calls_same. reflexivity.
Qed.

Lemma exportable_cases a : exportable a \/ ~ exportable a.
Proof.
  destruct (strptime_Ymd_cases (Date a)) as [[msg Hs]|(n & Hs & Hn)].
  - right. intros (d & Hd & _). congruence.
  - destruct (decide (n + 1 <= max_ordinal)) as [Hle|Hgt].
    + left. exists (midnight n). split; [exact Hs|exact Hle].
    + right. intros (d & Hd & Hle). rewrite Hs in Hd. injection Hd as <-.
      cbn [ordinal midnight] in Hle. lia.
Qed.

Lemma Forall_exportable_cases schedule :
  Forall exportable schedule \/ ~ Forall exportable schedule.
Proof.
  induction schedule as [|a rest [IH|IH]].
  - left. constructor.
  - destruct (exportable_cases a) as [Ha|Ha].
    + left. constructor; assumption.
    + right. intros H. inversion H. contradiction.
  - right. intros H. inversion H. contradiction.
Qed.

(** X12.  [export_to_ical] builds every event before it opens the file.  So
    when the [icalendar] package is missing, when an activity of the list
    has a date that does not parse or is the last day of the calendar, or
    when the file cannot be opened, it returns [False] with the file system
    exactly as it was: a calendar exported earlier to the same path is still
    there.  (With the package installed it has printed one line.) *)
Theorem export_failure_keeps_files
    (schedule : list activity) (output_file : string) (w : world) :
  icalendar_installed w = false \/ ~ Forall exportable schedule
  \/ open_refused w output_file = true ->
  exists w',
    ICalExport.export_to_ical schedule output_file w = (Ok false, w')
    /\ files w' = files w
    /\ written w' = written w
    /\ (icalendar_installed w = true -> exists line, stdout w' = line :: stdout w).
Proof.
  intros Hbad.
  unfold ICalExport.export_to_ical, ICalExport.export_body, io_bind at 1, import_icalendar.
  destruct (icalendar_installed w) eqn:Hi.
  - unfold io_bind at 1.
    destruct (Forall_exportable_cases schedule) as [Hall|Hno].
    + rewrite (add_events_exportable _ _ _ Hall).
      destruct Hbad as [Hbad|[Hbad|Hbad]]; [discriminate|contradiction|].
      unfold io_bind at 1, open_for_writing. cbn [open_refused with_uuid4_calls].
      rewrite Hbad. eexists. split; [reflexivity|]. repeat split. intros _. eexists. reflexivity.
    + destruct (add_events_not_exportable schedule ICalExport.new_calendar w Hno)
        as (e & n & Hce & Hrun).
      rewrite Hrun.
      destruct Hce as [->|[msg ->]]; (eexists; split; [reflexivity|]; repeat split;
                                      intros _; eexists; reflexivity).
  - eexists. split; [reflexivity|]. repeat split. discriminate.
Qed.

Lemma export_failure_keeps_files_witness :
  (icalendar_installed quiet_world = false \/ ~ Forall exportable [good_date; bad_date]
   \/ open_refused quiet_world "g5.ics" = true)
  /\ exists w',
       ICalExport.export_to_ical [good_date; bad_date] "g5.ics" quiet_world = (Ok false, w')
       /\ files w' = files quiet_world
       /\ written w' = written quiet_world.
Proof.
  assert (H : icalendar_installed quiet_world = false \/ ~ Forall exportable [good_date; bad_date]
              \/ open_refused quiet_world "g5.ics" = true).
  { right. left. intros Hall. inversion Hall as [|? ? _ Hrest]. inversion Hrest as [|? ? Hb _].
    destruct Hb as (d & Hd & _). vm_compute in Hd. discriminate Hd. }
  split; [exact H|].
  destruct (export_failure_keeps_files [good_date; bad_date] "g5.ics" quiet_world H)
    as (w' & Hrun & Hf & Hw & _).
  exists w'. split; [exact Hrun|]. split; [exact Hf|exact Hw].
Defined.

(** X13.  When the events were all built and the file was opened, a failing
    write makes [export_to_ical] return [False] after printing "Error
    creating iCalendar file: ...", and the file is left empty: what it held
    before is lost.  One identifier was drawn per activity. *)
Theorem export_write_failure_empties_file
    (schedule : list activity) (output_file : string) (w : world) :
  icalendar_installed w = true -> Forall exportable schedule ->
  open_refused w output_file = false -> write_refused w output_file = true ->
  exists w',
    ICalExport.export_to_ical schedule output_file w = (Ok false, w')
    /\ files w' = <[output_file := OpenedFile]> (files w)
    /\ written w' = written w
    /\ stdout w' = "Error creating iCalendar file: cannot write file" :: stdout w
    /\ uuid4_calls w' = (uuid4_calls w + length schedule)%nat.
Proof.
  intros Hi Hall Ho Hwr.
  unfold ICalExport.export_to_ical, ICalExport.export_body, io_bind at 1, import_icalendar.
  rewrite Hi. unfold io_bind at 1. rewrite (add_events_exportable _ _ _ Hall).
  unfold io_bind at 1, open_for_writing. cbn [open_refused with_uuid4_calls]. rewrite Ho.
  unfold io_bind at 1, write_and_close. cbn [write_refused with_files with_uuid4_calls].
  rewrite Hwr. eexists. split; [reflexivity|]. repeat split.
Qed.

Lemma export_write_failure_empties_file_witness :
  icalendar_installed (full_disk "g5.ics" old_calendar) = true
  /\ Forall exportable [good_date]
  /\ open_refused (full_disk "g5.ics" old_calendar) "g5.ics" = false
  /\ write_refused (full_disk "g5.ics" old_calendar) "g5.ics" = true
  /\ files (full_disk "g5.ics" old_calendar) !! "g5.ics" = Some old_calendar
  /\ exists w',
       ICalExport.export_to_ical [good_date] "g5.ics" (full_disk "g5.ics" old_calendar)
       = (Ok false, w')
       /\ files w' !! "g5.ics" = Some OpenedFile.
Proof.
  assert (Hall : Forall exportable [good_date]).
  { constructor; [|constructor]. exists (midnight 739348).
    split; [vm_compute; reflexivity|]. cbn [ordinal midnight]. unfold max_ordinal. lia. }
  split; [reflexivity|]. split; [exact Hall|]. split; [reflexivity|]. split; [reflexivity|].
  split; [vm_compute; reflexivity|].
  destruct (export_write_failure_empties_file [good_date] "g5.ics"
              (full_disk "g5.ics" old_calendar) eq_refl Hall eq_refl eq_refl)
    as (w' & Hrun & Hf & _).
  exists w'. split; [exact Hrun|]. rewrite Hf. apply lookup_insert_eq.
Defined.

(** *** [save_to_json] *)

Lemma save_to_json_in_range self json_path w :
  in_range (G5Schedule.sets self) ->
  open_refused w json_path = false -> write_refused w json_path = false ->
  G5Schedule.save_to_json self json_path w = (Ok tt, saved self json_path w).
Proof.
  intros Hr Ho Hw. unfold G5Schedule.save_to_json, io_bind, open_for_writing, io_lift.
  rewrite Ho, to_dict_schedule_in_range by exact Hr.
  unfold write_and_close. cbn [write_refused with_files]. rewrite Hw.
  unfold saved, with_written, with_files. cbn [files written stdout open_refused write_refused
    icalendar_installed uuid4_source uuid4_calls].
  rewrite insert_insert_eq. reflexivity.
Qed.

Lemma save_to_json_late self json_path w :
  Forall (fun s => valid_datetime (G5Set.learn_date s)) (G5Schedule.sets self) ->
  Exists late (G5Schedule.sets self) ->
  open_refused w json_path = false ->
  G5Schedule.save_to_json self json_path w = (Raise overflow, emptied json_path w).
Proof.
  intros Hv Hl Ho. unfold G5Schedule.save_to_json, io_bind, open_for_writing, io_lift.
  rewrite Ho, to_dict_schedule_late by assumption. reflexivity.
Qed.

Lemma save_to_json_write_refused self json_path w :
  in_range (G5Schedule.sets self) ->
  open_refused w json_path = false -> write_refused w json_path = true ->
  G5Schedule.save_to_json self json_path w
  = (Raise (OSError "cannot write file"), emptied json_path w).
Proof.
  intros Hr Ho Hw. unfold G5Schedule.save_to_json, io_bind, open_for_writing, io_lift.
  rewrite Ho, to_dict_schedule_in_range by exact Hr.
  unfold write_and_close. cbn [write_refused with_files]. rewrite Hw. reflexivity.
Qed.

Lemma save_to_json_open_refused self json_path w :
  open_refused w json_path = true ->
  G5Schedule.save_to_json self json_path w = (Raise (OSError "cannot open file"), w).
Proof.
  intros Ho. unfold G5Schedule.save_to_json, io_bind, open_for_writing. rewrite Ho. reflexivity.
Qed.

(** X14.  What [save_to_json] leaves behind, for every schedule with learn
    dates of the calendar.  If the file cannot be opened, [OSError] and
    nothing has changed.  Otherwise the file is opened, and so emptied,
    before the dictionary is computed: if a set is learned after 9999-12-17
    the call raises [OverflowError], and if the write fails it raises
    [OSError], and in both cases the file is left empty, whatever it held
    before; otherwise the file holds the dictionary of the schedule and one
    write was completed. *)
Theorem save_to_json_outcomes (self : G5Schedule.t) (json_path : string) (w : world) :
  Forall (fun s => valid_datetime (G5Set.learn_date s)) (G5Schedule.sets self) ->
  G5Schedule.save_to_json self json_path w
  = if open_refused w json_path then (Raise (OSError "cannot open file"), w)
    else if decide (Exists late (G5Schedule.sets self))
         then (Raise overflow, emptied json_path w)
         else if write_refused w json_path
              then (Raise (OSError "cannot write file"), emptied json_path w)
              else (Ok tt, saved self json_path w).
Proof.
  intros Hv. destruct (open_refused w json_path) eqn:Ho.
  - apply save_to_json_open_refused. exact Ho.
  - destruct (decide (Exists late (G5Schedule.sets self))) as [Hl|Hl].
    + apply save_to_json_late; assumption.
    + pose proof (valid_not_late_in_range _ Hv Hl) as Hr.
      destruct (write_refused w json_path) eqn:Hw.
      * apply save_to_json_write_refused; assumption.
      * apply save_to_json_in_range; assumption.
Qed.

Lemma save_to_json_outcomes_witness :
  Forall (fun s => valid_datetime (G5Set.learn_date s)) (G5Schedule.sets late_schedule)
  /\ files (holding "g5.json" old_calendar) !! "g5.json" = Some old_calendar
  /\ exists w',
       G5Schedule.save_to_json late_schedule "g5.json" (holding "g5.json" old_calendar)
       = (Raise overflow, w')
       /\ files w' !! "g5.json" = Some OpenedFile.
Proof.
  assert (Hv : Forall (fun s => valid_datetime (G5Set.learn_date s))
                 (G5Schedule.sets late_schedule)).
  { repeat constructor; cbn; unfold max_ordinal, usec_per_day; lia. }
  split; [exact Hv|]. split; [vm_compute; reflexivity|].
  exists (emptied "g5.json" (holding "g5.json" old_calendar)).
  split; [|vm_compute; reflexivity].
  rewrite (save_to_json_outcomes late_schedule "g5.json" _ Hv). reflexivity.
Defined.













End Files.

(** ** [generate_g5_schedule], from start to finish *)

Section Generate.
Import Calendar Text CalendarFacts TextFacts.

Lemma strptime_dmY_cases s :
  (exists msg, strptime_dmY s = Raise (ValueError msg))
  \/ (exists n, strptime_dmY s = Ok (midnight n) /\ 1 <= n <= max_ordinal).
Proof. apply build_datetime_cases. Qed.

Lemma add_new_sets_generated o n k :
  1 <= o -> o + (n - 1) <= max_ordinal ->
  G5Schedule.add_new_sets (G5Schedule.init (midnight o)) n k
  = (Ok tt, generated_schedule o n k).
Proof.
  intros H1 H2. rewrite add_new_sets_in_range by (cbn; lia). reflexivity.
Qed.

Lemma batch_valid o k n :
  1 <= o -> o + (n - 1) <= max_ordinal ->
  Forall (fun s => valid_datetime (G5Set.learn_date s)) (batch (midnight o) k n).
Proof.
  intros H1 H2. apply Forall_forall. intros s Hs. unfold batch in Hs.
  change (map ?f ?l) with (f <$> l) in Hs. apply list_elem_of_fmap in Hs as (i & -> & Hi).
  unfold G5Schedule.range in Hi. apply elem_of_seqZ in Hi.
  unfold valid_datetime, new_set. cbn. unfold usec_per_day. lia.
Qed.

Lemma batch_late o k n :
  1 <= n -> max_ordinal < o + (n - 1) + 14 -> Exists late (batch (midnight o) k n).
Proof.
  intros H1 H2. apply Exists_exists. exists (new_set (midnight o) k (n - 1)). split.
  - apply (list_elem_of_lookup_2 _ (Z.to_nat (n - 1))). apply lookup_batch. lia.
  - unfold late, new_set. cbn. lia.
Qed.

Ltac run_generate Hd Hn Hk :=
  unfold Cli.generate_g5_schedule, Cli.generate_body, io_bind at 1, io_lift at 1;
  rewrite Hd;
  replace (_ <=? 0) with false by (symmetry; apply Z.leb_gt; lia);
  replace (_ <? 1) with false by (symmetry; apply Z.ltb_ge; lia).




(** X17.  A run of [generate_g5_schedule] that fails after validation.  With
    valid arguments and learn dates that exist, when the last review falls
    after 9999-12-31 or the write fails, the call raises ([OverflowError] in
    the first case, [OSError] in the second) after printing
    "Error generating schedule: ...", and the data file is left empty: an
    earlier schedule saved at the same path is lost although no new one was
    written. *)
Theorem generate_failure_empties_json
    (start_date_str : string) (new_sets set_number : Z) (json_path : string)
    (return_schedule : bool) (w : world) (o : Z) :
  strptime_dmY start_date_str = Ok (midnight o) ->
  1 <= new_sets -> 1 <= set_number ->
  o + (new_sets - 1) <= max_ordinal ->
  open_refused w json_path = false ->
  max_ordinal < o + (new_sets - 1) + 14 \/ write_refused w json_path = true ->
  let e := if decide (max_ordinal < o + (new_sets - 1) + 14) then overflow
           else OSError "cannot write file" in
  Cli.generate_g5_schedule start_date_str new_sets set_number json_path return_schedule w
  = (Raise e,
     with_stdout (("Error generating schedule: " +:+ exn_message e) :: stdout w)
       (emptied json_path w)).
Proof.
  intros Hd Hn Hk Hfit Ho Hbad e.
  pose proof (build_datetime_Ok _ _ Hd) as Hrange. cbn [ordinal midnight] in Hrange.
  run_generate Hd Hn Hk.
  rewrite add_new_sets_generated by lia. unfold io_bind at 1, io_lift at 1.
  unfold io_bind at 1. subst e.
  pose proof (batch_valid o set_number new_sets ltac:(lia) Hfit) as Hv.
  destruct (decide (max_ordinal < o + (new_sets - 1) + 14)) as [Hl|Hl].
  - rewrite (save_to_json_late (generated_schedule o new_sets set_number) json_path w Hv
               (batch_late o set_number new_sets Hn Hl) Ho).
    reflexivity.
  - destruct Hbad as [Hbad|Hbad]; [contradiction|].
    rewrite (save_to_json_write_refused (generated_schedule o new_sets set_number) json_path w);
      [reflexivity| |exact Ho|exact Hbad].
    apply batch_in_range; cbn [ordinal midnight]; lia.
Qed.

Lemma generate_failure_empties_json_witness :
  strptime_dmY "20-12-9999" = Ok (midnight (max_ordinal - 11))
  /\ 1 <= 1 /\ 1 <= 1 /\ max_ordinal - 11 + (1 - 1) <= max_ordinal
  /\ open_refused (holding "g5.json" old_calendar) "g5.json" = false
  /\ (max_ordinal < max_ordinal - 11 + (1 - 1) + 14
      \/ write_refused (holding "g5.json" old_calendar) "g5.json" = true)
  /\ exists w',
       Cli.generate_g5_schedule "20-12-9999" 1 1 "g5.json" true
         (holding "g5.json" old_calendar)
       = (Raise overflow, w')
       /\ files w' !! "g5.json" = Some OpenedFile
       /\ stdout w' = ["Error generating schedule: date value out of range"].
Proof.
  assert (Hd : strptime_dmY "20-12-9999" = Ok (midnight (max_ordinal - 11)))
    by (vm_compute; reflexivity).
  assert (Hfit : max_ordinal - 11 + (1 - 1) <= max_ordinal) by lia.
  assert (Hbad : max_ordinal < max_ordinal - 11 + (1 - 1) + 14
                 \/ write_refused (holding "g5.json" old_calendar) "g5.json" = true)
    by (left; lia).
  split; [exact Hd|]. split; [lia|]. split; [lia|]. split; [exact Hfit|].
  split; [reflexivity|]. split; [exact Hbad|].
  eexists. split.
  - rewrite (generate_failure_empties_json "20-12-9999" 1 1 "g5.json" true
               (holding "g5.json" old_calendar) (max_ordinal - 11)
               Hd ltac:(lia) ltac:(lia) Hfit eq_refl Hbad).
    reflexivity.
  - split; vm_compute; reflexivity.
Defined.

End Generate.

(** ** [main] *)

Section Main.
Import Calendar Text CalendarFacts TextFacts.

Lemma same_except_refl ps w : same_except ps w w.
Proof. repeat split. Qed.

Lemma same_except_trans ps w1 w2 w3 :
  same_except ps w1 w2 -> same_except ps w2 w3 -> same_except ps w1 w3.
Proof.
  intros (Hf & Ho & Hw & Hi & Hu) (Hf' & Ho' & Hw' & Hi' & Hu').
  split; [intros p Hp; rewrite (Hf' p Hp); apply Hf; exact Hp|].
  repeat split; congruence.
Qed.

Lemma io_frame_ret {A} ps (a : A) : io_frame ps (io_ret a).
Proof. intros w. apply same_except_refl. Qed.

Lemma io_frame_raise {A} ps e : io_frame ps (@io_raise A e).
Proof. intros w. apply same_except_refl. Qed.

Lemma io_frame_lift {A} ps (r : result A) : io_frame ps (io_lift r).
Proof. intros w. apply same_except_refl. Qed.

Lemma io_frame_bind {A B} ps (c : io A) (k : A -> io B) :
  io_frame ps c -> (forall a, io_frame ps (k a)) -> io_frame ps (io_bind c k).
Proof.
  intros Hc Hk w. unfold io_bind. specialize (Hc w).
  destruct (c w) as [[a|e] w1]; cbn [snd] in *; [|exact Hc].
  eapply same_except_trans; [exact Hc|apply Hk].
Qed.

Lemma io_frame_print ps line : io_frame ps (print line).
Proof. intros w. repeat split. Qed.

Lemma io_frame_uuid4 ps : io_frame ps uuid4.
Proof. intros w. repeat split. Qed.

Lemma io_frame_import ps : io_frame ps import_icalendar.
Proof. intros w. unfold import_icalendar. destruct (icalendar_installed w); repeat split. Qed.

Lemma io_frame_open ps path : path ∈ ps -> io_frame ps (open_for_writing path).
Proof.
  intros Hin w. unfold open_for_writing. destruct (open_refused w path); [repeat split|].
  split; [|repeat split]. intros p Hp. cbn [snd files with_files].
  apply lookup_insert_ne. intros ->. contradiction.
Qed.

Lemma io_frame_write ps path data : path ∈ ps -> io_frame ps (write_and_close path data).
Proof.
  intros Hin w. unfold write_and_close. destruct (write_refused w path); [repeat split|].
  split; [|repeat split]. intros p Hp. cbn [snd files with_files with_written].
  apply lookup_insert_ne. intros ->. contradiction.
Qed.

Lemma io_frame_try {A} ps (body : io A) (handler : exn -> io A) :
  io_frame ps body -> (forall e, io_frame ps (handler e)) ->
  io_frame ps (fun w => match body w with
                        | (Ok v, w') => (Ok v, w')
                        | (Raise e, w') => handler e w'
                        end).
Proof.
  intros Hb Hh w. specialize (Hb w). destruct (body w) as [[v|e] w1]; cbn [snd] in *;
    [exact Hb|]. eapply same_except_trans; [exact Hb|apply Hh].
Qed.

Lemma io_frame_print_all ps lines : io_frame ps (CliMain.print_all lines).
Proof.
  induction lines as [|l lines IH]; cbn [CliMain.print_all]; [apply io_frame_ret|].
  apply io_frame_bind; [apply io_frame_print|intros _; exact IH].
Qed.

Lemma io_frame_add_events ps schedule cal : io_frame ps (ICalExport.add_events schedule cal).
Proof.
  revert cal. induction schedule as [|a rest IH]; intros cal; cbn [ICalExport.add_events];
    [apply io_frame_ret|].
  apply io_frame_bind; [|intros ev; apply IH].
  unfold ICalExport.event_of_activity.
  apply io_frame_bind; [apply io_frame_lift|intros d].
  apply io_frame_bind; [apply io_frame_lift|intros d'].
  apply io_frame_bind; [apply io_frame_uuid4|intros u]. apply io_frame_ret.
Qed.

Lemma io_frame_export ps schedule output_file : output_file ∈ ps ->
  io_frame ps (ICalExport.export_to_ical schedule output_file).
Proof.
  intros Hin.
  assert (Hbody : io_frame ps (ICalExport.export_body schedule output_file)).
  { unfold ICalExport.export_body.
    apply io_frame_bind; [apply io_frame_import|intros _].
    apply io_frame_bind; [apply io_frame_add_events|intros cal].
    apply io_frame_bind; [apply io_frame_open; exact Hin|intros _].
    apply io_frame_bind; [apply io_frame_write; exact Hin|intros _]. apply io_frame_ret. }
  intros w. unfold ICalExport.export_to_ical. specialize (Hbody w).
  destruct (ICalExport.export_body schedule output_file w) as [[b|e] w1]; cbn [snd] in *;
    [exact Hbody|].
  eapply same_except_trans; [exact Hbody|]. destruct e; repeat split.
Qed.

Lemma io_frame_schedule_export ps self output_file : output_file ∈ ps ->
  io_frame ps (G5Schedule.export_to_ical self output_file).
Proof.
  intros Hin. unfold G5Schedule.export_to_ical.
  apply io_frame_bind; [apply io_frame_lift|intros l]. apply io_frame_export. exact Hin.
Qed.

Lemma io_frame_save_to_json ps self json_path : json_path ∈ ps ->
  io_frame ps (G5Schedule.save_to_json self json_path).
Proof.
  intros Hin. unfold G5Schedule.save_to_json.
  apply io_frame_bind; [apply io_frame_open; exact Hin|intros _].
  apply io_frame_bind; [apply io_frame_lift|intros d]. apply io_frame_write. exact Hin.
Qed.

Lemma io_frame_generate ps s n k json_path b : json_path ∈ ps ->
  io_frame ps (Cli.generate_g5_schedule s n k json_path b).
Proof.
  intros Hin. unfold Cli.generate_g5_schedule. apply io_frame_try.
  - unfold Cli.generate_body.
    apply io_frame_bind; [apply io_frame_lift|intros d].
    destruct (n <=? 0); [apply io_frame_raise|].
    destruct (k <? 1); [apply io_frame_raise|].
    destruct (G5Schedule.add_new_sets (G5Schedule.init d) n k) as [added schedule].
    apply io_frame_bind; [apply io_frame_lift|intros _].
    apply io_frame_bind; [apply io_frame_save_to_json; exact Hin|intros _].
    apply io_frame_bind; [apply io_frame_lift|intros df].
    destruct b; apply io_frame_ret.
  - intros e. apply io_frame_bind; [apply io_frame_print|intros _]. apply io_frame_raise.
Qed.

Section MainFacts.

Variable to_string : list display_row -> string.

Lemma io_frame_export_if_requested a schedule :
  io_frame (output_files a) (CliMain.export_if_requested a schedule).
Proof.
  unfold CliMain.export_if_requested, output_files.
  destruct (CliMain.calendar a) as [[|c rest]|]; try apply io_frame_ret.
  apply io_frame_bind.
  - apply io_frame_schedule_export. right. left.
  - intros [|]; [apply io_frame_print_all|apply io_frame_ret].
Qed.

Lemma io_frame_main a : io_frame (output_files a) (CliMain.main to_string a).
Proof.
  unfold CliMain.main.
  apply (io_frame_try _ (CliMain.main_body to_string a)
           (fun e => let* _ := print ("Failed to generate schedule: " +:+ exn_message e) in
                     io_ret None)).
  - unfold CliMain.main_body. apply io_frame_bind.
    + apply io_frame_generate. left.
    + intros [df|df schedule k]; [apply io_frame_raise|].
      apply io_frame_bind; [apply io_frame_print|intros _].
      apply io_frame_bind; [apply io_frame_print|intros _].
      apply io_frame_bind; [apply io_frame_print|intros _].
      apply io_frame_bind; [apply io_frame_export_if_requested|intros _]. apply io_frame_ret.
  - intros e. apply io_frame_bind; [apply io_frame_print|intros _]. apply io_frame_ret.
Qed.

(** X18.  [main] touches two files at most: every path other than the
    [--output] path and the calendar path derived from [--calendar] holds
    after the call what it held before, whether the run succeeds or not. *)
Theorem main_touches_only_its_files (a : CliMain.args) (w : world) (p : string) :
  p <> CliMain.output a ->
  (forall c, CliMain.calendar a = Some c -> p <> CliMain.calendar_path_of c) ->
  files (CliMain.main to_string a w).2 !! p = files w !! p.
Proof.
  intros Ho Hc. destruct (io_frame_main a w) as [Hf _]. apply Hf.
  unfold output_files. intros Hin. apply elem_of_cons in Hin as [->|Hin]; [contradiction|].
  destruct (CliMain.calendar a) as [c|]; [|inversion Hin].
  apply list_elem_of_singleton in Hin. exact (Hc c eq_refl Hin).
Qed.

End MainFacts.

Lemma io_quiet_ret {A} (a : A) : io_quiet (io_ret a).
Proof. intros w. reflexivity. Qed.

Lemma io_quiet_raise {A} e : io_quiet (@io_raise A e).
Proof. intros w. reflexivity. Qed.

Lemma io_quiet_lift {A} (r : result A) : io_quiet (io_lift r).
Proof. intros w. reflexivity. Qed.

Lemma io_quiet_bind {A B} (c : io A) (k : A -> io B) :
  io_quiet c -> (forall a, io_quiet (k a)) -> io_quiet (io_bind c k).
Proof.
  intros Hc Hk w. unfold io_bind. specialize (Hc w).
  destruct (c w) as [[a|e] w1]; cbn [snd] in *; [|exact Hc].
  rewrite Hk. exact Hc.
Qed.

Lemma io_quiet_open path : io_quiet (open_for_writing path).
Proof. intros w. unfold open_for_writing. destruct (open_refused w path); reflexivity. Qed.

Lemma io_quiet_write path data : io_quiet (write_and_close path data).
Proof. intros w. unfold write_and_close. destruct (write_refused w path); reflexivity. Qed.

Lemma io_quiet_generate_body s n k json_path b :
  io_quiet (Cli.generate_body s n k json_path b).
Proof.
  unfold Cli.generate_body.
  apply io_quiet_bind; [apply io_quiet_lift|intros d].
  destruct (n <=? 0); [apply io_quiet_raise|].
  destruct (k <? 1); [apply io_quiet_raise|].
  destruct (G5Schedule.add_new_sets (G5Schedule.init d) n k) as [added schedule].
  apply io_quiet_bind; [apply io_quiet_lift|intros _].
  apply io_quiet_bind.
  - unfold G5Schedule.save_to_json.
    apply io_quiet_bind; [apply io_quiet_open|intros _].
    apply io_quiet_bind; [apply io_quiet_lift|intros data]. apply io_quiet_write.
  - intros _. apply io_quiet_bind; [apply io_quiet_lift|intros df].
    destruct b; apply io_quiet_ret.
Qed.

Lemma to_dict_Ok_activity_list self d :
  G5Schedule.to_dict self = Ok d -> G5Schedule.get_activity_list self = Ok (d_full_schedule d).
Proof.
  unfold G5Schedule.to_dict, mbind, result_mbind. intros H.
  destruct (result_mapM G5Set.to_dict (G5Schedule.sets self)) as [ds|e]; [|discriminate].
  cbn [result_bind] in H.
  destruct (G5Schedule.get_activity_list self) as [l|e]; [|discriminate].
  cbn [result_bind] in H. injection H as <-. reflexivity.
Qed.

Lemma save_to_json_Ok self json_path w u w' :
  G5Schedule.save_to_json self json_path w = (Ok u, w') ->
  exists d, G5Schedule.to_dict self = Ok d.
Proof.
  unfold G5Schedule.save_to_json, io_bind, open_for_writing, io_lift.
  destruct (open_refused w json_path); [discriminate|].
  destruct (G5Schedule.to_dict self) as [d|e]; [eauto|discriminate].
Qed.

Lemma generate_body_Ok s n k json_path w v w1 :
  Cli.generate_body s n k json_path true w = (Ok v, w1) ->
  exists df schedule d,
    v = Cli.FrameAndSchedule df schedule k
    /\ G5Schedule.to_dict schedule = Ok d
    /\ G5Schedule.to_dataframe schedule (k - 1) = Ok df.
Proof.
  unfold Cli.generate_body, io_bind at 1, io_lift at 1.
  destruct (strptime_dmY s) as [d|e]; [|discriminate].
  destruct (n <=? 0); [discriminate|]. destruct (k <? 1); [discriminate|].
  destruct (G5Schedule.add_new_sets (G5Schedule.init d) n k) as [added schedule].
  unfold io_bind at 1, io_lift at 1. destruct added as [[]|e]; [|discriminate].
  unfold io_bind at 1.
  destruct (G5Schedule.save_to_json schedule json_path w) as [[u|e] w2] eqn:Es; [|discriminate].
  apply save_to_json_Ok in Es as [data Hdata].
  unfold io_bind, io_lift.
  destruct (G5Schedule.to_dataframe schedule (k - 1)) as [df|e] eqn:Ed; [|discriminate].
  intros [= <- <-]. eauto 6.
Qed.

Lemma export_to_ical_returns schedule output_file w :
  exists b w', ICalExport.export_to_ical schedule output_file w = (Ok b, w').
Proof.
  unfold ICalExport.export_to_ical.
  destruct (ICalExport.export_body schedule output_file w) as [[b|e] w1]; [eauto|].
  destruct e; eexists _, _; reflexivity.
Qed.

Lemma print_all_Ok lines w :
  CliMain.print_all lines w = (Ok tt, with_stdout (rev lines ++ stdout w) w).
Proof.
  revert w. induction lines as [|l lines IH]; intros w.
  - cbn. destruct w; reflexivity.
  - cbn [CliMain.print_all]. unfold io_bind, print. rewrite IH.
    cbn [rev stdout with_stdout]. rewrite <- app_assoc. reflexivity.
Qed.

Lemma export_if_requested_returns a schedule l w :
  G5Schedule.get_activity_list schedule = Ok l ->
  exists w', CliMain.export_if_requested a schedule w = (Ok tt, w').
Proof.
  intros Hl. unfold CliMain.export_if_requested.
  destruct (CliMain.calendar a) as [[|c rest]|]; try (eexists; reflexivity).
  unfold G5Schedule.export_to_ical, io_lift, io_bind. rewrite Hl.
  destruct (export_to_ical_returns l (CliMain.calendar_path_of (String c rest)) w)
    as (b & w' & ->).
  destruct b; [rewrite print_all_Ok|]; eexists; reflexivity.
Qed.

Section MainRuns.

Variable to_string : list display_row -> string.

(** X19.  [main] never raises.  It returns the table exactly when
    [generate_g5_schedule] returned: a calendar export that fails changes
    nothing to that, and the call of [schedule.export_to_ical], which is
    outside the exporter's [try], cannot raise here because the data file
    was saved from the same activity list.  When [generate_g5_schedule]
    raises, [main] returns [None], leaves the files as that call left them
    and the error has been printed twice: "Error generating schedule: ..."
    and then "Failed to generate schedule: ...".
     *)
Theorem main_returns_table_or_none (a : CliMain.args) (w : world) :
  let run := Cli.generate_g5_schedule (CliMain.start_date a) (CliMain.num_sets a)
               (CliMain.set_number a) (CliMain.output a) true w in
  exists r w',
    CliMain.main to_string a w = (Ok r, w')
    /\ match run.1 with
       | Ok v => exists df schedule,
                   v = Cli.FrameAndSchedule df schedule (CliMain.set_number a)
                   /\ G5Schedule.to_dataframe schedule (CliMain.set_number a - 1) = Ok df
                   /\ r = Some df
       | Raise e =>
           r = None
           /\ files w' = files run.2
           /\ stdout w' = ("Failed to generate schedule: " +:+ exn_message e)
                          :: ("Error generating schedule: " +:+ exn_message e) :: stdout w
       end.
Proof.
  intros run. subst run. unfold CliMain.main, CliMain.main_body, io_bind at 1.
  unfold Cli.generate_g5_schedule.
  pose proof (io_quiet_generate_body (CliMain.start_date a) (CliMain.num_sets a)
                (CliMain.set_number a) (CliMain.output a) true w) as Hq.
  destruct (Cli.generate_body (CliMain.start_date a) (CliMain.num_sets a)
              (CliMain.set_number a) (CliMain.output a) true w) as [[v|e] w1] eqn:E.
  - apply generate_body_Ok in E as (df & schedule & d & -> & Hd & Hdf).
    apply to_dict_Ok_activity_list in Hd.
    unfold io_bind, print.
    match goal with
    | |- context [CliMain.export_if_requested a schedule ?w2] =>
        destruct (export_if_requested_returns a schedule _ w2 Hd) as [w3 ->]
    end.
    eexists _, _. split; [reflexivity|]. cbn [fst]. eauto.
  - cbn [snd] in Hq. eexists _, _. split; [reflexivity|]. cbn [fst snd].
    split; [reflexivity|]. split; [reflexivity|].
    cbn [stdout with_stdout]. rewrite Hq. reflexivity.
Qed.

End MainRuns.

Lemma lower_app a b : CliMain.lower (a +:+ b) = CliMain.lower a +:+ CliMain.lower b.
Proof.
  induction a as [|c a IH]; [reflexivity|].
  change (String c a +:+ b) with (String c (a +:+ b)). cbn [CliMain.lower].
  rewrite IH. reflexivity.
Qed.

Lemma endswith_refl s : CliMain.endswith s s = true.
Proof. destruct s; cbn [CliMain.endswith]; rewrite String.eqb_refl; reflexivity. Qed.

Lemma endswith_spec s suffix :
  CliMain.endswith s suffix = true <-> exists stem, s = stem +:+ suffix.
Proof.
  split.
  - induction s as [|c s IH]; cbn [CliMain.endswith]; intros H.
    + rewrite orb_false_r in H. apply String.eqb_eq in H as <-. exists EmptyString. reflexivity.
    + apply orb_true_iff in H as [H|H].
      * apply String.eqb_eq in H as <-. exists EmptyString. reflexivity.
      * destruct (IH H) as [stem ->]. exists (String c stem). reflexivity.
  - intros [stem ->]. induction stem as [|c stem IH]; [apply endswith_refl|].
    change (String c stem +:+ suffix) with (String c (stem +:+ suffix)).
    cbn [CliMain.endswith]. rewrite IH. apply orb_true_r.
Qed.

(** X20.  The path the calendar is written to always ends in ".ics", in
    any mix of upper and lower case: a [--calendar] value that ends so is
    used as it is, any other gets ".ics" appended, and applying the rule
    twice changes nothing more. *)
Theorem calendar_path_ends_with_ics (calendar : string) :
  (exists stem, CliMain.lower (CliMain.calendar_path_of calendar) = stem +:+ ".ics")
  /\ ((exists stem, CliMain.lower calendar = stem +:+ ".ics") ->
      CliMain.calendar_path_of calendar = calendar)
  /\ (~ (exists stem, CliMain.lower calendar = stem +:+ ".ics") ->
      CliMain.calendar_path_of calendar = calendar +:+ ".ics")
  /\ CliMain.calendar_path_of (CliMain.calendar_path_of calendar)
     = CliMain.calendar_path_of calendar.
Proof.
  assert (Hadd : CliMain.endswith (CliMain.lower (calendar +:+ ".ics")) ".ics" = true).
  { apply endswith_spec. exists (CliMain.lower calendar). apply lower_app. }
  unfold CliMain.calendar_path_of.
  destruct (CliMain.endswith (CliMain.lower calendar) ".ics") eqn:E; cbn [negb].
  - split; [apply endswith_spec; exact E|]. split; [reflexivity|].
    split; [intros Hno; exfalso; apply Hno, endswith_spec; exact E|].
    rewrite E. reflexivity.
  - split; [apply endswith_spec; exact Hadd|].
    split; [intros Hyes; apply endswith_spec in Hyes; congruence|].
    split; [reflexivity|]. rewrite Hadd. reflexivity.
Qed.


Section MainSuccess.

Variable to_string : list display_row -> string.




End MainSuccess.

Lemma main_touches_only_its_files_witness :
  "notes.txt" <> CliMain.output sample_args
  /\ (forall c, CliMain.calendar sample_args = Some c ->
                "notes.txt" <> CliMain.calendar_path_of c)
  /\ files (CliMain.main sample_to_string sample_args (holding "notes.txt" old_calendar)).2
       !! "notes.txt" = Some old_calendar.
Proof.
  assert (H1 : "notes.txt" <> CliMain.output sample_args) by discriminate.
  assert (H2 : forall c, CliMain.calendar sample_args = Some c ->
                         "notes.txt" <> CliMain.calendar_path_of c).
  { intros c [= <-]. vm_compute. discriminate. }
  split; [exact H1|]. split; [exact H2|].
  rewrite (main_touches_only_its_files sample_to_string sample_args
             (holding "notes.txt" old_calendar) "notes.txt" H1 H2).
  vm_compute. reflexivity.
Defined.



End Main.

(** ** The titles of the calendar events *)

Section Titles.
Import Calendar Text CalendarFacts TextFacts.

Lemma occurs_app c a b : occurs c (a +:+ b) = occurs c a || occurs c b.
Proof.
  induction a as [|x a IH]; [reflexivity|].
  change (String x a +:+ b) with (String x (a +:+ b)). cbn [occurs].
  rewrite IH. apply orb_assoc.
Qed.

Lemma prefix_other_char c needle x rest :
  Ascii.eqb x c = false -> String.prefix (String c needle) (String x rest) = false.
Proof.
  intros H. cbn [String.prefix]. destruct (Ascii.ascii_dec c x) as [->|_]; [|reflexivity].
  rewrite Ascii.eqb_refl in H. discriminate.
Qed.

Lemma contains_skip c needle a b :
  occurs c a = false ->
  contains (String c needle) (a +:+ b) = contains (String c needle) b.
Proof.
  induction a as [|x a IH]; [reflexivity|].
  change (String x a +:+ b) with (String x (a +:+ b)). cbn [occurs].
  intros H. apply orb_false_iff in H as [Hx Ha].
  cbn [contains]. rewrite (prefix_other_char _ _ _ _ Hx), IH by exact Ha. reflexivity.
Qed.

Lemma contains_no_occurrence c needle s :
  occurs c s = false -> contains (String c needle) s = false.
Proof.
  induction s as [|x s IH]; [reflexivity|]. cbn [occurs]. intros H.
  apply orb_false_iff in H as [Hx Hs].
  cbn [contains]. rewrite (prefix_other_char _ _ _ _ Hx), IH by exact Hs. reflexivity.
Qed.

Lemma occurs_digits c d :
  occurs c "-0123456789" = false -> occurs c (NilEmpty.string_of_uint d) = false.
Proof.
  intros H. cbn [occurs] in H. repeat (apply orb_false_iff in H as [? H]).
  induction d as [|d IH|d IH|d IH|d IH|d IH|d IH|d IH|d IH|d IH|d IH];
    cbn [NilEmpty.string_of_uint occurs]; [reflexivity|..];
    rewrite IH, orb_false_r; assumption.
Qed.

Lemma occurs_string_of_uint c d :
  occurs c "-0123456789" = false -> occurs c (NilZero.string_of_uint d) = false.
Proof.
  intros H. unfold NilZero.string_of_uint.
  destruct d; try (apply occurs_digits; exact H).
  cbn [occurs] in H |- *. apply orb_false_iff in H as [_ H].
  apply orb_false_iff in H as [H _]. rewrite H. reflexivity.
Qed.

Lemma occurs_str_int c z : occurs c "-0123456789" = false -> occurs c (str_int z) = false.
Proof.
  intros H. unfold str_int, NilZero.string_of_int.
  destruct (Z.to_int z) as [d|d]; [apply occurs_string_of_uint; exact H|].
  cbn [occurs]. rewrite (occurs_string_of_uint c d H), orb_false_r.
  cbn [occurs] in H. apply orb_false_iff in H as [H _]. exact H.
Qed.

Lemma occurs_zeros c n : occurs c "-0123456789" = false -> occurs c (zeros n) = false.
Proof.
  intros H. cbn [occurs] in H. apply orb_false_iff in H as [_ H].
  apply orb_false_iff in H as [H0 _].
  induction n as [|n IH]; [reflexivity|]. cbn [zeros occurs]. rewrite H0, IH. reflexivity.
Qed.

Lemma occurs_format_0d c w z :
  occurs c "-0123456789" = false -> occurs c (format_0d w z) = false.
Proof.
  intros H. unfold format_0d. rewrite !occurs_app, occurs_zeros, occurs_str_int by exact H.
  rewrite !orb_false_r. destruct (z <? 0); [|reflexivity].
  cbn [occurs] in H |- *. apply orb_false_iff in H as [H _]. rewrite H. reflexivity.
Qed.

Lemma titles_of_plain_name s :
  occurs "L" (G5Set.name s) = false -> occurs "(" (G5Set.name s) = false ->
  map (fun a => ICalExport.category_properties (Action a)) (set_activities s)
  = titles_of_set (G5Set.name s).
Proof.
  intros HL Hp. set (name := G5Set.name s) in *.
  assert (Hlearn : forall suffix, occurs "L" suffix = false ->
            contains "Learn" ("Review " +:+ name +:+ suffix) = false).
  { intros suffix Hs. apply contains_no_occurrence.
    rewrite !occurs_app, HL, Hs. reflexivity. }
  assert (Hskip : forall needle suffix,
            contains (String "(" needle) ("Review " +:+ name +:+ suffix)
            = contains (String "(" needle) suffix).
  { intros needle suffix. rewrite contains_skip by reflexivity.
    apply contains_skip. exact Hp. }
  unfold set_activities, titles_of_set. cbn [map Action]. fold name.
  unfold ICalExport.category_properties.
  rewrite !Hlearn by reflexivity. rewrite !Hskip.
  reflexivity.
Qed.

Lemma occurs_generated_name c number :
  occurs c "Set -0123456789" = false -> occurs c ("Set " +:+ format_0d 2 number) = false.
Proof.
  intros H. change "Set -0123456789"%string with ("Set " +:+ "-0123456789") in H.
  rewrite occurs_app in H. apply orb_false_iff in H as [Hs Hd].
  rewrite occurs_app, Hs, occurs_format_0d by exact Hd. reflexivity.
Qed.

Lemma add_new_sets_loop_names (P : G5Set.t -> Prop) indices self k :
  (forall number d, P (G5Set.init ("Set " +:+ format_0d 2 number) d)) ->
  Forall P (G5Schedule.sets self) ->
  Forall P (G5Schedule.sets (G5Schedule.add_new_sets_loop self k indices).2).
Proof.
  intros Hnew. revert self. induction indices as [|i rest IH]; intros self Hold;
    cbn [G5Schedule.add_new_sets_loop]; [exact Hold|].
  destruct (add_days (G5Schedule.start_date self) i) as [d|e]; [|exact Hold].
  apply IH. cbn [G5Schedule.sets]. apply Forall_app. split; [exact Hold|].
  constructor; [apply Hnew|constructor].
Qed.

(** X23.  For the schedules that [add_new_sets] builds (names "Set NN"),
    the exporter's substring search always finds the right kind: the
    activities of each set get, in order, the titles "📚 Learn ...",
    "🔍 Review ... (R1)", "🔄 Review ... (R2)", "📝 Review ... (R3)" and
    "✅ Review ... (R4)" with the colours 9, 5, 5, 7 and 11, whatever the
    set numbers (negative ones included). *)
Theorem generated_sets_get_their_emoji
    (start : datetime) (n k : Z) (activities : list activity) :
  let self := (G5Schedule.add_new_sets (G5Schedule.init start) n k).2 in
  G5Schedule.get_activity_list self = Ok activities ->
  map (fun a => ICalExport.category_properties (Action a)) activities
  = concat (map (fun s => titles_of_set (G5Set.name s)) (G5Schedule.sets self)).
Proof.
  intros self Hl. apply get_activity_list_Ok in Hl as ->.
  assert (Hplain : Forall (fun s => occurs "L" (G5Set.name s) = false
                                    /\ occurs "(" (G5Set.name s) = false)
                     (G5Schedule.sets self)).
  { apply add_new_sets_loop_names; [|constructor].
    intros number d. cbn [G5Set.name G5Set.init].
    split; apply occurs_generated_name; reflexivity. }
  induction Hplain as [|s ss [HL Hp] _ IH]; [reflexivity|].
  cbn [map concat]. rewrite map_app, IH, titles_of_plain_name by assumption. reflexivity.
Qed.

Lemma generated_sets_get_their_emoji_witness :
  exists activities,
    G5Schedule.get_activity_list (G5Schedule.add_new_sets (G5Schedule.init april_7) 1 7).2
    = Ok activities
    /\ map (fun a => ICalExport.category_properties (Action a)) activities
       = titles_of_set "Set 07".
Proof.
  assert (H : G5Schedule.get_activity_list
                (G5Schedule.add_new_sets (G5Schedule.init april_7) 1 7).2
              = Ok (set_activities (G5Set.init "Set 07" april_7)))
    by (vm_compute; reflexivity).
  eexists. split; [exact H|].
  rewrite (generated_sets_get_their_emoji april_7 1 7 _ H). reflexivity.
Defined.

Lemma prefix_app needle a b :
  String.prefix needle a = true -> String.prefix needle (a +:+ b) = true.
Proof.
  revert needle. induction a as [|x a IH]; intros needle H.
  - destruct needle; [destruct b; reflexivity|discriminate H].
  - change (String x a +:+ b) with (String x (a +:+ b)).
    destruct needle as [|c needle]; [reflexivity|]. cbn [String.prefix] in H |- *.
    destruct (Ascii.ascii_dec c x); [apply IH; exact H|discriminate H].
Qed.

Lemma contains_app_l needle a b :
  contains needle a = true -> contains needle (a +:+ b) = true.
Proof.
  induction a as [|x a IH]; cbn [contains]; intros H.
  - rewrite orb_false_r in H. destruct needle; [|discriminate H].
    destruct b; reflexivity.
  - change (String x a +:+ b) with (String x (a +:+ b)). cbn [contains].
    apply orb_true_iff in H as [H|H].
    + pose proof (prefix_app _ (String x a) b H) as Hp.
      change (String x a +:+ b) with (String x (a +:+ b)) in Hp. rewrite Hp. reflexivity.
    + rewrite (IH H). apply orb_true_r.
Qed.

Lemma contains_app_r needle a b :
  contains needle b = true -> contains needle (a +:+ b) = true.
Proof.
  intros H. induction a as [|x a IH]; [exact H|].
  change (String x a +:+ b) with (String x (a +:+ b)). cbn [contains].
  rewrite IH. apply orb_true_r.
Qed.

(** X24.  The substring search looks at the whole action, set name included.
    For a set whose name contains "Learn", all five activities of the set,
    the four reviews too, get the book emoji and colour 9 of a learning
    event: "Learn" is looked for first. *)
Theorem set_named_learn_is_tagged_as_learning (s : G5Set.t) (start : datetime)
    (activities : list activity) :
  contains "Learn" (G5Set.name s) = true ->
  G5Schedule.get_activity_list {| G5Schedule.start_date := start; G5Schedule.sets := [s] |}
  = Ok activities ->
  length activities = 5%nat
  /\ Forall (fun a => ICalExport.category_properties (Action a)
                      = [("summary", TextValue ("📚 " +:+ Action a)); ("color", TextValue "9")])
            activities.
Proof.
  intros Hname Hl. apply get_activity_list_Ok in Hl as ->.
  cbn [G5Schedule.sets map concat]. rewrite app_nil_r. split; [reflexivity|].
  assert (H : forall before after,
            ICalExport.category_properties (before +:+ G5Set.name s +:+ after)
            = [("summary", TextValue ("📚 " +:+ before +:+ G5Set.name s +:+ after));
               ("color", TextValue "9")]).
  { intros before after. unfold ICalExport.category_properties.
    rewrite (contains_app_r "Learn" before (G5Set.name s +:+ after))
      by (apply contains_app_l; exact Hname).
    reflexivity. }
  unfold set_activities. constructor.
  - cbn [Action]. unfold ICalExport.category_properties.
    rewrite (contains_app_l "Learn" "Learn " (G5Set.name s)) by reflexivity. reflexivity.
  - repeat (constructor; [cbn [Action]; apply H|]). constructor.
Qed.

Lemma set_named_learn_is_tagged_as_learning_witness :
  contains "Learn" (G5Set.name (G5Set.init "Learn German" april_7)) = true
  /\ exists activities,
       G5Schedule.get_activity_list
         {| G5Schedule.start_date := april_7;
            G5Schedule.sets := [G5Set.init "Learn German" april_7] |} = Ok activities
       /\ activities !! 4%nat
          = Some {| Date := "2025-04-21"; Action := "Review Learn German (R4)" |}
       /\ Forall (fun a => ICalExport.category_properties (Action a)
                           = [("summary", TextValue ("📚 " +:+ Action a));
                              ("color", TextValue "9")]) activities.
Proof.
  assert (Hn : contains "Learn" (G5Set.name (G5Set.init "Learn German" april_7)) = true)
    by reflexivity.
  assert (Hl : G5Schedule.get_activity_list
                 {| G5Schedule.start_date := april_7;
                    G5Schedule.sets := [G5Set.init "Learn German" april_7] |}
               = Ok (set_activities (G5Set.init "Learn German" april_7)))
    by (vm_compute; reflexivity).
  split; [exact Hn|]. eexists. split; [exact Hl|]. split; [vm_compute; reflexivity|].
  exact (proj2 (set_named_learn_is_tagged_as_learning _ april_7 _ Hn Hl)).
Defined.

End Titles.
